(** * cloudify.amqp_client: a shallow embedding

    The reconnecting AMQP client of [cloudify/amqp_client.py]: the
    connection object with its backoff, host rotation and outbound task
    queue, the channel-method hand-off, the task consumer and the two
    request/response handlers.

    Python objects become records, attribute assignment becomes a record
    update, [Queue.Queue] and [collections.deque] become lists (head = oldest
    item), dictionaries become [gmap]s.  What the program cannot decide by
    itself (whether the broker accepts a connection, whether a channel
    method raises, what other threads do while the caller is suspended) is
    an explicit argument of the function that observes it. *)

From Stdlib Require Import ZArith Lia.
From stdpp Require Import base option list strings pretty gmap.

Local Open Scope Z_scope.

(** ** Exceptions and outcomes *)

(** The exception classes that the module raises, catches or lets through. *)
Inductive exn : Type :=
| AMQPConnectionError (msg : string)   (* pika.exceptions.AMQPConnectionError *)
| ConnectionClosed                     (* pika.exceptions.ConnectionClosed *)
| ChannelClosed (msg : string)         (* pika.exceptions.ChannelClosed *)
| QueueEmpty                           (* Queue.Empty *)
| RuntimeError (msg : string)
| ValueError (msg : string)
| KeyError (key : string)
| TypeError                            (* a call that binds a parameter twice *)
| OtherException (name : string)       (* any other Exception subclass *)
| OtherBaseException (name : string).  (* BaseException, not Exception *)

#[global] Instance exn_eq_dec : EqDecision exn.
Proof. solve_decision. Defined.

(** [isinstance(e, pika.exceptions.AMQPConnectionError)]: in pika,
    [ConnectionClosed] derives from [AMQPConnectionError]. *)
Definition is_AMQPConnectionError (e : exn) : bool :=
  match e with
  | AMQPConnectionError _ | ConnectionClosed => true
  | _ => false
  end.

(** [isinstance(e, Exception)]. *)
Definition is_Exception (e : exn) : bool :=
  match e with
  | OtherBaseException _ => false
  | _ => true
  end.

(** How a call ends: it returns, it raises, or the caller stays suspended
    for ever (an untimed wait on a queue or an event that nobody serves). *)
Inductive outcome (A : Type) : Type :=
| Returns (a : A)
| Raises (e : exn)
| Blocks.
Arguments Returns {A} a.
Arguments Raises {A} e.
Arguments Blocks {A}.

(** ** [Queue.Queue] *)

Module Queue.
(** An unbounded FIFO: [put] appends at the tail, [get] takes the head. *)
Definition put {A} (x : A) (q : list A) : list A := q ++ [x].

(** [get_nowait()]: the head, or [Queue.Empty]. *)
Definition get_nowait {A} (q : list A) : option (A * list A) :=
  match q with
  | [] => None
  | x :: q' => Some (x, q')
  end.

(** [get(timeout=t)] on a queue that holds [q] by the time the wait ends.
    [None] for [t] waits for ever; a negative [t] is rejected before the
    queue is looked at; otherwise an empty queue times out with
    [Queue.Empty]. *)
Definition get {A} (timeout : option Z) (q : list A) : outcome (A * list A) :=
  match timeout with
  | None =>
      match q with
      | [] => Blocks
      | x :: q' => Returns (x, q')
      end
  | Some t =>
      if t <? 0 then Raises (ValueError "'timeout' must be a non-negative number")
      else match q with
           | [] => Raises QueueEmpty
           | x :: q' => Returns (x, q')
           end
  end.
End Queue.

(** ** Host rotation: [AMQPConnection._get_connection_params] *)

(** [AMQPParams.raw_host]: one host name or a sequence of them. *)
Inductive raw_host : Type :=
| HostStr (h : string)
| HostSeq (hs : list string).

(** [x[i], x[j] = x[j], x[i]] on a list. *)
Definition swap {A} (x : list A) (i j : nat) : list A :=
  match x !! i, x !! j with
  | Some xi, Some xj => <[j:=xi]> (<[i:=xj]> x)
  | _, _ => x
  end.

(** The loop of [random.shuffle]: for [i] from [len(x)-1] down to [1],
    [j = int(random() * (i+1))] and the items at [i] and [j] are exchanged.
    [rand k] is the [k]-th number drawn; it is reduced to the range
    [0..i] that [int(random() * (i+1))] has. *)
Fixpoint shuffle_from {A} (i : nat) (rand : nat -> nat) (k : nat) (x : list A)
  : list A :=
  match i with
  | O => x
  | S i' => shuffle_from i' rand (S k) (swap x i (rand k mod (S i))%nat)
  end.

Definition random_shuffle {A} (rand : nat -> nat) (x : list A) : list A :=
  shuffle_from (length x - 1) rand 0 x.

(** The [pika.ConnectionParameters] object built once by [as_pika_params]
    and handed out again at every [yield]; only [host] is ever reassigned. *)
Record ConnectionParameters : Type := mkParams {
  host : string;
  port : Z;
  virtual_host : string;
}.

Definition set_host (h : string) (p : ConnectionParameters) : ConnectionParameters :=
  {| host := h; port := port p; virtual_host := virtual_host p |}.

(** The generator object.  [GenCreated]: the call
    [self._get_connection_params()] has been made but the body has not
    started.  [GenYielded hosts rest params]: suspended at [yield], with
    [rest] the hosts that the current [for] loop has still to visit and
    [params] the one object that every [yield] hands out. *)
Inductive params_gen : Type :=
| GenCreated
| GenYielded (hosts rest : list string) (params : ConnectionParameters).

(** The prologue of the generator body, run by the first [next]. *)
Definition gen_hosts (rand : nat -> nat) (raw : raw_host) : list string :=
  match raw with
  | HostStr h => [h]
  | HostSeq hs => random_shuffle rand hs
  end.

(** Resume the loops [while True: for host in hosts: ...; yield params].
    [fuel] bounds the number of times the [while True] loop starts the
    [for] loop afresh; [None] means that no [yield] was reached within it. *)
Fixpoint gen_resume (fuel : nat) (hosts rest : list string)
    (params : ConnectionParameters) : option params_gen :=
  match rest with
  | h :: rest' => Some (GenYielded hosts rest' (set_host h params))
  | [] =>
      match fuel with
      | O => None
      | S fuel' =>
          match hosts with
          | h :: rest' => Some (GenYielded hosts rest' (set_host h params))
          | [] => gen_resume fuel' hosts [] params
          end
      end
  end.

(** [next(self._connection_params)].  [pika_params] is the result of
    [self._amqp_params.as_pika_params()] and [raw] is
    [self._amqp_params.raw_host], both read when the body starts. *)
Definition gen_next (fuel : nat) (rand : nat -> nat) (raw : raw_host)
    (pika_params : ConnectionParameters) (g : params_gen) : option params_gen :=
  match g with
  | GenCreated =>
      let hosts := gen_hosts rand raw in
      gen_resume fuel hosts hosts pika_params
  | GenYielded hosts rest params => gen_resume fuel hosts rest params
  end.

(** The object handed out by the last [yield]. *)
Definition yielded (g : params_gen) : option ConnectionParameters :=
  match g with
  | GenCreated => None
  | GenYielded _ _ params => Some params
  end.

(** ** The connection object and its surroundings *)

Definition thread_id : Type := nat.
Definition handler_id : Type := nat.
(** A [pika.BlockingConnection] object, named by the number of the connect
    attempt that produced it. *)
Definition pika_connection : Type := nat.
(** A channel: its connection and its channel number. *)
Definition channel : Type := (pika_connection * nat)%type.
(** Keyword arguments of a channel method, as (name, value) pairs. *)
Definition kwargs : Type := list (string * string).
(** A reply queue ([err_queue]) is a shared object: the envelope carries a
    reference to it. *)
Definition slot_ref : Type := nat.

(** The dictionary built by [channel_method]. *)
Record envelope : Type := mkEnvelope {
  env_method : string;
  env_message : kwargs;
  env_err_queue : option slot_ref;
  env_channel : option channel;
}.

#[global] Instance envelope_eq_dec : EqDecision envelope.
Proof. solve_decision. Defined.

(** The attributes of [AMQPConnection] ([_amqp_params] is kept as the two
    values the module reads from it). *)
Record AMQPConnection : Type := mkConn {
  _handlers : list handler_id;
  _connection_params : params_gen;
  _reconnect_backoff : Z;
  _closed : bool;
  raw_host_of : raw_host;                  (* self._amqp_params.raw_host *)
  as_pika_params : ConnectionParameters;   (* self._amqp_params.as_pika_params() *)
  _pika_connection : option pika_connection;
  _consumer_thread : option thread_id;
  connect_wait : bool;                     (* threading.Event: is it set *)
  _connect_timeout : option Z;
  _error : option exn;
  _connection_tasks_queue : list envelope;
}.

Definition MAX_BACKOFF : Z := 30.

(** [AMQPConnection.__init__]. *)
Definition AMQPConnection_init (handlers : list handler_id) (raw : raw_host)
    (pika_params : ConnectionParameters) (connect_timeout : option Z)
  : AMQPConnection :=
  {| _handlers := handlers;
     _connection_params := GenCreated;
     _reconnect_backoff := 1;
     _closed := false;
     raw_host_of := raw;
     as_pika_params := pika_params;
     _pika_connection := None;
     _consumer_thread := None;
     connect_wait := false;
     _connect_timeout := connect_timeout;
     _error := None;
     _connection_tasks_queue := [] |}.

(** Attribute assignments. *)
Definition set_connection_params (g : params_gen) (c : AMQPConnection) :=
  mkConn (_handlers c) g (_reconnect_backoff c) (_closed c) (raw_host_of c)
    (as_pika_params c) (_pika_connection c) (_consumer_thread c)
    (connect_wait c) (_connect_timeout c) (_error c) (_connection_tasks_queue c).
Definition set_reconnect_backoff (b : Z) (c : AMQPConnection) :=
  mkConn (_handlers c) (_connection_params c) b (_closed c) (raw_host_of c)
    (as_pika_params c) (_pika_connection c) (_consumer_thread c)
    (connect_wait c) (_connect_timeout c) (_error c) (_connection_tasks_queue c).
Definition set_closed (b : bool) (c : AMQPConnection) :=
  mkConn (_handlers c) (_connection_params c) (_reconnect_backoff c) b
    (raw_host_of c) (as_pika_params c) (_pika_connection c) (_consumer_thread c)
    (connect_wait c) (_connect_timeout c) (_error c) (_connection_tasks_queue c).
Definition set_pika_connection (p : option pika_connection) (c : AMQPConnection) :=
  mkConn (_handlers c) (_connection_params c) (_reconnect_backoff c) (_closed c)
    (raw_host_of c) (as_pika_params c) p (_consumer_thread c)
    (connect_wait c) (_connect_timeout c) (_error c) (_connection_tasks_queue c).
Definition set_consumer_thread (t : option thread_id) (c : AMQPConnection) :=
  mkConn (_handlers c) (_connection_params c) (_reconnect_backoff c) (_closed c)
    (raw_host_of c) (as_pika_params c) (_pika_connection c) t
    (connect_wait c) (_connect_timeout c) (_error c) (_connection_tasks_queue c).
Definition set_connect_wait (b : bool) (c : AMQPConnection) :=
  mkConn (_handlers c) (_connection_params c) (_reconnect_backoff c) (_closed c)
    (raw_host_of c) (as_pika_params c) (_pika_connection c) (_consumer_thread c)
    b (_connect_timeout c) (_error c) (_connection_tasks_queue c).
Definition set_error (e : option exn) (c : AMQPConnection) :=
  mkConn (_handlers c) (_connection_params c) (_reconnect_backoff c) (_closed c)
    (raw_host_of c) (as_pika_params c) (_pika_connection c) (_consumer_thread c)
    (connect_wait c) (_connect_timeout c) e (_connection_tasks_queue c).
Definition set_tasks_queue (q : list envelope) (c : AMQPConnection) :=
  mkConn (_handlers c) (_connection_params c) (_reconnect_backoff c) (_closed c)
    (raw_host_of c) (as_pika_params c) (_pika_connection c) (_consumer_thread c)
    (connect_wait c) (_connect_timeout c) (_error c) q.

(** ** Deliveries *)

(** A decoded JSON document. *)
#[warnings="-register-all"]
Inductive json : Type :=
| JNull
| JBool (b : bool)
| JNum (n : Z)
| JStr (s : string)
| JArr (items : list json)
| JObj (members : list (string * json)).

(** The [properties] of a delivery, as far as the module reads them. *)
Record BasicProperties : Type := mkProperties {
  reply_to : option string;
  correlation_id : option string;
  expiration : option string;
}.

(** The tuple [(channel, properties, full_task, method.delivery_tag)]. *)
Definition task_args : Type := (channel * BasicProperties * json * nat)%type.

(** A callback registered with the callback handler, by name. *)
Definition callback_id : Type := nat.

(** Everything outside the connection object that the module acts on: the
    clock, the broker, the reply queues, the threads and the logger. *)
Record World : Type := mkWorld {
  now : Z;                                   (* time.time(), in seconds *)
  slept : list Z;                            (* arguments of time.sleep, oldest first *)
  dialled : list string;                     (* hosts given to BlockingConnection *)
  ncalls : nat;                              (* channel methods invoked so far *)
  sent : list (channel * string * kwargs);   (* channel methods the broker took, in order *)
  slots : gmap slot_ref (list (option exn)); (* the err_queue objects *)
  registered : list (handler_id * pika_connection); (* handler.register calls *)
  started : list thread_id;                  (* Thread.start() calls *)
  finished : list thread_id;                 (* threads that have ended *)
  workers : list task_args;                  (* worker threads started by _run_task *)
  called : list (callback_id * json);        (* callbacks called, with their argument *)
  log : list (string * string);              (* logger records: level, text *)
}.

Definition world0 : World :=
  mkWorld 0 [] [] 0 [] ∅ [] [] [] [] [] [].

Definition set_now (t : Z) (w : World) :=
  mkWorld t (slept w) (dialled w) (ncalls w) (sent w) (slots w) (registered w)
    (started w) (finished w) (workers w) (called w) (log w).
Definition add_slept (b : Z) (w : World) :=
  mkWorld (now w) (slept w ++ [b]) (dialled w) (ncalls w) (sent w) (slots w)
    (registered w) (started w) (finished w) (workers w) (called w) (log w).
Definition add_dialled (h : string) (w : World) :=
  mkWorld (now w) (slept w) (dialled w ++ [h]) (ncalls w) (sent w) (slots w)
    (registered w) (started w) (finished w) (workers w) (called w) (log w).
Definition add_call (w : World) :=
  mkWorld (now w) (slept w) (dialled w) (S (ncalls w)) (sent w) (slots w)
    (registered w) (started w) (finished w) (workers w) (called w) (log w).
Definition add_sent (m : channel * string * kwargs) (w : World) :=
  mkWorld (now w) (slept w) (dialled w) (ncalls w) (sent w ++ [m]) (slots w)
    (registered w) (started w) (finished w) (workers w) (called w) (log w).
Definition set_slots (s : gmap slot_ref (list (option exn))) (w : World) :=
  mkWorld (now w) (slept w) (dialled w) (ncalls w) (sent w) s (registered w)
    (started w) (finished w) (workers w) (called w) (log w).
Definition add_registered (hs : list (handler_id * pika_connection)) (w : World) :=
  mkWorld (now w) (slept w) (dialled w) (ncalls w) (sent w) (slots w)
    (registered w ++ hs) (started w) (finished w) (workers w) (called w) (log w).
Definition add_started (t : thread_id) (w : World) :=
  mkWorld (now w) (slept w) (dialled w) (ncalls w) (sent w) (slots w)
    (registered w) (started w ++ [t]) (finished w) (workers w) (called w) (log w).
Definition add_log (level text : string) (w : World) :=
  mkWorld (now w) (slept w) (dialled w) (ncalls w) (sent w) (slots w)
    (registered w) (started w) (finished w) (workers w) (called w)
    (log w ++ [(level, text)]).

Definition add_worker (a : task_args) (w : World) :=
  mkWorld (now w) (slept w) (dialled w) (ncalls w) (sent w) (slots w)
    (registered w) (started w) (finished w) (workers w ++ [a]) (called w) (log w).

(** [time.sleep(b)]: the record of the call, and the clock moves on. *)
Definition time_sleep (b : Z) (w : World) : World :=
  set_now (now w + b) (add_slept b w).

(** ** Backoff and connecting *)

(** [_get_reconnect_backoff]: hand out the stored value and double it,
    up to [MAX_BACKOFF]. *)
Definition _get_reconnect_backoff (self : AMQPConnection) : Z * AMQPConnection :=
  let backoff := _reconnect_backoff self in
  (backoff, set_reconnect_backoff (Z.min (backoff * 2) MAX_BACKOFF) self).

Definition _reset_reconnect_backoff (self : AMQPConnection) : AMQPConnection :=
  set_reconnect_backoff 1 self.

(** What one call [pika.BlockingConnection(params)] does: the time it
    takes and, when it fails, the exception it raises. *)
Record attempt : Type := mkAttempt {
  att_elapsed : Z;
  att_raises : option exn;
}.

Definition refused (e : exn) : attempt := mkAttempt 0 (Some e).
Definition accepted : attempt := mkAttempt 0 None.

(** The truth value of [deadline and time.time() > deadline]. *)
Definition deadline_passed (deadline : option Z) (t : Z) : bool :=
  match deadline with
  | None => false
  | Some d => negb (d =? 0) && (t >? d)
  end.

(** [_get_pika_connection(params, deadline)]. *)
Definition _get_pika_connection (att : attempt) (params : ConnectionParameters)
    (deadline : option Z) (self : AMQPConnection) (w : World)
  : outcome (option pika_connection) * AMQPConnection * World :=
  let connection : pika_connection := length (dialled w) in
  let w := set_now (now w + att_elapsed att) (add_dialled (host params) w) in
  match att_raises att with
  | Some e =>
      if is_AMQPConnectionError e then
        let '(backoff, self) := _get_reconnect_backoff self in
        let w := time_sleep backoff w in
        if deadline_passed deadline (now w) then (Raises e, self, w)
        else (Returns None, self, w)
      else (Raises e, self, w)
  | None =>
      let self := _reset_reconnect_backoff self in
      let self := set_closed false self in
      (Returns (Some connection), self, w)
  end.

(** The loop [while self._pika_connection is None] of [connect], on the
    attempts [atts] that the network will answer with, oldest first.  The
    outcome is [None] when the loop is still running after the last of
    them.  A generator that never yields keeps [next] from returning. *)
Fixpoint connect_loop (rand : nat -> nat) (atts : list attempt)
    (deadline : option Z) (self : AMQPConnection) (w : World)
  : option (outcome pika_connection) * AMQPConnection * World * list attempt :=
  match atts with
  | [] => (None, self, w, [])
  | att :: atts' =>
      match gen_next 1 rand (raw_host_of self) (as_pika_params self)
              (_connection_params self) with
      | None => (Some Blocks, self, w, atts)
      | Some g =>
          let self := set_connection_params g self in
          let params := default (as_pika_params self) (yielded g) in
          match _get_pika_connection att params deadline self w with
          | (Returns r, self, w) =>
              let self := set_pika_connection r self in
              match r with
              | Some c => (Some (Returns c), self, w, atts')
              | None => connect_loop rand atts' deadline self w
              end
          | (Raises e, self, w) => (Some (Raises e), self, w, atts')
          | (Blocks, self, w) => (Some Blocks, self, w, atts')
          end
      end
  end.

(** [connect()].  The out-channel is channel 1 of the new connection; the
    [register] calls of the handlers are recorded in order (opening the
    channel and registering are taken to succeed). *)
Definition connect (rand : nat -> nat) (atts : list attempt)
    (self : AMQPConnection) (w : World)
  : option (outcome channel) * AMQPConnection * World * list attempt :=
  let self := set_error None self in
  let self := set_pika_connection None self in
  let deadline :=
    match _connect_timeout self with
    | Some timeout => Some (now w + timeout)
    | None => None
    end in
  match connect_loop rand atts deadline self w with
  | (None, self, w, atts) => (None, self, w, atts)
  | (Some (Returns c), self, w, atts) =>
      let out_channel : channel := (c, 1%nat) in
      let w := add_registered (map (fun h => (h, c)) (_handlers self)) w in
      let self := set_connect_wait true self in
      (Some (Returns out_channel), self, w, atts)
  | (Some (Raises e), self, w, atts) =>
      let self := set_error (Some e) self in
      let self := set_connect_wait true self in
      (Some (Raises e), self, w, atts)
  | (Some Blocks, self, w, atts) => (Some Blocks, self, w, atts)
  end.

(** [close(wait)].  [others] is what the other threads do while the caller
    is suspended in [join]; the join returns once the consumer thread is
    among the finished ones. *)
Definition close (others : AMQPConnection * World -> AMQPConnection * World)
    (wait : bool) (self : AMQPConnection) (w : World)
  : outcome unit * AMQPConnection * World :=
  let self := set_closed true self in
  match _consumer_thread self with
  | Some t =>
      if wait then
        let '(self, w) := others (self, w) in
        if bool_decide (t ∈ finished w)
        then (Returns tt, set_consumer_thread None self, w)
        else (Blocks, self, w)
      else (Returns tt, self, w)
  | None => (Returns tt, self, w)
  end.

(** ** The outbound queue *)

(** [err_queue.put(v)] on the reply queue that [s] refers to. *)
Definition slot_put (s : slot_ref) (v : option exn) (w : World) : World :=
  set_slots (<[s := Queue.put v (default [] (slots w !! s))]> (slots w)) w.

(** The call of [method] on [target_channel] with the keyword arguments
    [message].  [broker n] tells whether
    the [n]-th channel method invoked in this world raises, and what. *)
Definition invoke (broker : nat -> option exn) (target : channel)
    (method : string) (message : kwargs) (w : World) : option exn * World :=
  match broker (ncalls w) with
  | None => (None, add_sent (target, method, message) (add_call w))
  | Some e => (Some e, add_call w)
  end.

(** The loop of [_process_publish] on the queue contents [q]; [closed] is
    [self._closed].  Returns how the loop ended and what the queue holds. *)
Fixpoint _process_publish_loop (broker : nat -> option exn) (chan : channel)
    (closed : bool) (q : list envelope) (w : World)
  : outcome unit * list envelope * World :=
  match q with
  | [] => (Returns tt, [], w)
  | envelope :: q =>
      let target_channel := default chan (env_channel envelope) in
      let method := env_method envelope in
      let message := env_message envelope in
      let err_queue := env_err_queue envelope in
      match invoke broker target_channel method message w with
      | (Some ConnectionClosed, w) =>
          if closed then (Returns tt, q, w)
          else (Raises ConnectionClosed, Queue.put envelope q, w)
      | (Some e, w) =>
          if is_Exception e then
            let w := match err_queue with
                     | Some s => slot_put s (Some e) w
                     | None => w
                     end in
            (Raises e, q, w)
          else (Raises e, q, w)
      | (None, w) =>
          let w := match err_queue with
                   | Some s => slot_put s None w
                   | None => w
                   end in
          _process_publish_loop broker chan closed q w
      end
  end.

(** [_process_publish(channel)]. *)
Definition _process_publish (broker : nat -> option exn) (chan : channel)
    (self : AMQPConnection) (w : World) : outcome unit * AMQPConnection * World :=
  let '(r, q, w) :=
    _process_publish_loop broker chan (_closed self)
      (_connection_tasks_queue self) w in
  (r, set_tasks_queue q self, w).

(** ** The consumer loop *)

(** What one pass of the [while not self._closed] loop of [consume] meets:
    what the other threads did since the last pass, whether
    [process_data_events] raises, and the connect attempts at hand should
    the pass have to reconnect. *)
Record pass : Type := mkPass {
  pass_others : AMQPConnection * World -> AMQPConnection * World;
  pass_events : option exn;
  pass_attempts : list attempt;
}.

(** The end of [consume]: one more drain; the [close()] of the broker
    connection that follows leaves no trace in the world. *)
Definition consume_exit (broker : nat -> option exn) (out_channel : channel)
    (self : AMQPConnection) (w : World) : outcome unit * AMQPConnection * World :=
  _process_publish broker out_channel self w.

(** The [while not self._closed] loop of [consume].  [None]: the loop is
    still running after the last pass given, or a reconnect ran out of
    attempts. *)
Fixpoint consume_loop (rand : nat -> nat) (broker : nat -> option exn)
    (passes : list pass) (out_channel : channel)
    (self : AMQPConnection) (w : World)
  : option (outcome unit * AMQPConnection * World) :=
  match passes with
  | [] => None
  | p :: passes =>
      let '(self, w) := pass_others p (self, w) in
      if _closed self then Some (consume_exit broker out_channel self w)
      else
        let '(r, self, w) :=
          match pass_events p with
          | Some e => (Raises e, self, w)
          | None => _process_publish broker out_channel self w
          end in
        match r with
        | Raises (ChannelClosed msg) =>
            let w := add_log "ERROR" ("Channel closed: " +:+ msg) w in
            Some (consume_exit broker out_channel self w)
        | Raises ConnectionClosed =>
            let self := set_connect_wait false self in
            match connect rand (pass_attempts p) self w with
            | (None, _, _, _) => None
            | (Some (Returns out_channel), self, w, _) =>
                consume_loop rand broker passes out_channel self w
            | (Some (Raises e), self, w, _) => Some (Raises e, self, w)
            | (Some Blocks, self, w, _) => Some (Blocks, self, w)
            end
        | Raises e => Some (Raises e, self, w)
        | Blocks => Some (Blocks, self, w)
        | Returns _ => consume_loop rand broker passes out_channel self w
        end
  end.

(** [consume()]: connect, loop, drain once more. *)
Definition consume (rand : nat -> nat) (broker : nat -> option exn)
    (atts : list attempt) (passes : list pass)
    (self : AMQPConnection) (w : World)
  : option (outcome unit * AMQPConnection * World) :=
  match connect rand atts self w with
  | (None, _, _, _) => None
  | (Some (Returns out_channel), self, w, _) =>
      consume_loop rand broker passes out_channel self w
  | (Some (Raises e), self, w, _) => Some (Raises e, self, w)
  | (Some Blocks, self, w, _) => Some (Blocks, self, w)
  end.

(** ** Handing a channel method to the consumer thread *)

(** [Queue.Queue()]: a new, empty reply queue. *)
Definition slot_new (w : World) : slot_ref * World :=
  let s := fresh (dom (slots w)) in
  (s, set_slots (<[s := []]> (slots w)) w).

(** [channel_method(method, channel, wait, timeout, kwargs)] called from
    thread [caller].  [others] is what the other threads, the consumer
    thread among them, do between the [put] of the envelope and the end of
    the caller's wait on its reply queue; [x : X] is the state of the rest
    of the program (the handlers), which those threads may change too. *)
Definition channel_method {X : Type}
    (others : X * AMQPConnection * World -> X * AMQPConnection * World)
    (caller : thread_id) (method : string) (chan : option channel)
    (wait : bool) (timeout : option Z) (message : kwargs)
    (x : X) (self : AMQPConnection) (w : World)
  : outcome unit * X * AMQPConnection * World :=
  if wait && bool_decide (_consumer_thread self = Some caller) then
    (Raises (RuntimeError "Cannot wait when sending from the connection thread"),
     x, self, w)
  else
    let '(err_queue, w) :=
      if wait then let '(s, w) := slot_new w in (Some s, w) else (None, w) in
    let envelope :=
      {| env_method := method; env_message := message;
         env_err_queue := err_queue; env_channel := chan |} in
    let self :=
      set_tasks_queue (Queue.put envelope (_connection_tasks_queue self)) self in
    match err_queue with
    | Some s =>
        let '(x, self, w) := others (x, self, w) in
        match Queue.get timeout (default [] (slots w !! s)) with
        | Returns (err, rest) =>
            let w := set_slots (<[s := rest]> (slots w)) w in
            match err with
            | Some e => if is_Exception e then (Raises e, x, self, w)
                        else (Returns tt, x, self, w)
            | None => (Returns tt, x, self, w)
            end
        | Raises e => (Raises e, x, self, w)
        | Blocks => (Blocks, x, self, w)
        end
    | None => (Returns tt, x, self, w)
    end.

(** Whether the keyword arguments [kw] have an item of key [key]. *)
Definition has_key (key : string) (kw : kwargs) : bool :=
  existsb (String.eqb key) kw.*1.

(** The dict [message] that [publish] expands into keyword arguments.  Its
    values are text, as in [kwargs], except under the key [channel], where
    a caller stores what the [channel] parameter of [channel_method] takes:
    [msg_channel] is the channel object under the key [channel] ([None]
    when the dict has no such key, or holds [None] there), [msg_items] are
    the items of the other keys. *)
Record message_dict : Type := mkMessage {
  msg_channel : option channel;
  msg_items : kwargs;
  msg_items_keys : has_key "channel" msg_items = false;
}.

(** The parameters that the call in [publish] has bound before it expands
    the dict: [self], the positional ['publish'], and the keywords [wait]
    and [timeout]. *)
Definition bound_names : list string := ["self"; "method"; "wait"; "timeout"].

(** Whether the dict has a key that the call has bound already. *)
Definition binds_twice (message : message_dict) : bool :=
  existsb (fun name => has_key name (msg_items message)) bound_names.

(** [publish(message, wait, timeout)]: the call
    [self.channel_method('publish', wait=wait, timeout=timeout, ...)] with
    the items of [message] as further keyword arguments.  A key of the
    dict that names a bound parameter makes the call itself raise
    [TypeError], before the body of [channel_method] runs; the key
    [channel] binds the parameter [channel]; the other items are collected
    as the keyword arguments of the channel method. *)
Definition publish {X : Type}
    (others : X * AMQPConnection * World -> X * AMQPConnection * World)
    (caller : thread_id) (message : message_dict) (wait : bool)
    (timeout : option Z) (x : X) (self : AMQPConnection) (w : World)
  : outcome unit * X * AMQPConnection * World :=
  if binds_twice message then (Raises TypeError, x, self, w)
  else
    channel_method others caller "publish" (msg_channel message) wait timeout
      (msg_items message) x self w.

(** [ack(channel, delivery_tag, wait, timeout)]. *)
Definition ack {X : Type}
    (others : X * AMQPConnection * World -> X * AMQPConnection * World)
    (caller : thread_id) (chan : channel) (delivery_tag : nat)
    (wait : bool) (timeout : option Z)
    (x : X) (self : AMQPConnection) (w : World) :=
  channel_method others caller "basic_ack" (Some chan) wait timeout
    [("delivery_tag", pretty delivery_tag)] x self w.

(** [consume_in_thread()].  The new thread gets a name that no started
    thread has; [others] is what it and the other threads do while the
    caller waits for [connect_wait]. *)
Definition consume_in_thread
    (others : AMQPConnection * World -> AMQPConnection * World)
    (self : AMQPConnection) (w : World)
  : outcome (option thread_id) * AMQPConnection * World :=
  match _consumer_thread self with
  | Some _ => (Returns None, self, w)
  | None =>
      let t : thread_id := fresh (started w) in
      let self := set_consumer_thread (Some t) self in
      let w := add_started t w in
      let '(self, w) := others (self, w) in
      if connect_wait self then
        match _error self with
        | Some e => (Raises e, self, w)
        | None => (Returns (_consumer_thread self), self, w)
        end
      else (Blocks, self, w)
  end.

(** ** Handlers *)

(** The [method] frame of a delivery: only [delivery_tag] is read. *)
Record Deliver : Type := mkDeliver { delivery_tag : nat }.

(** The attributes of [TaskConsumer] that [process] and the pool use.
    [_sem] is the value of the semaphore: the number of free pool slots. *)
Record TaskConsumer : Type := mkTaskConsumer {
  threadpool_size : nat;
  tc_exchange : string;
  tc_queue : string;
  late_ack : bool;
  _sem : nat;
  _tasks_buffer : list task_args;
}.

(** The class attribute [TaskConsumer.routing_key]: the empty string. *)
Definition routing_key : string := EmptyString.

(** [TaskConsumer.__init__(queue, threadpool_size, exchange_type)]; the
    class attribute [late_ack] is [False]. *)
Definition TaskConsumer_init (queue : string) (size : nat) : TaskConsumer :=
  {| threadpool_size := size;
     tc_exchange := queue;
     tc_queue := queue +:+ "_" +:+ routing_key;
     late_ack := false;
     _sem := size;
     _tasks_buffer := [] |}.

Definition set_sem (n : nat) (h : TaskConsumer) : TaskConsumer :=
  mkTaskConsumer (threadpool_size h) (tc_exchange h) (tc_queue h) (late_ack h)
    n (_tasks_buffer h).
Definition set_tasks_buffer (b : list task_args) (h : TaskConsumer) : TaskConsumer :=
  mkTaskConsumer (threadpool_size h) (tc_exchange h) (tc_queue h) (late_ack h)
    (_sem h) b.

(** The number of pool slots in use. *)
Definition in_use (h : TaskConsumer) : nat := (threadpool_size h - _sem h)%nat.

(** [self._sem.acquire(blocking=False)]. *)
Definition sem_acquire (h : TaskConsumer) : bool * TaskConsumer :=
  match _sem h with
  | O => (false, h)
  | S n => (true, set_sem n h)
  end.

(** [_run_task(task_args)]: a worker thread is started on the task. *)
Definition _run_task (a : task_args) (w : World) : World := add_worker a w.

(** [_maybe_run_next_task()]. *)
Definition _maybe_run_next_task (h : TaskConsumer) (w : World)
  : bool * TaskConsumer * World :=
  match _tasks_buffer h with
  | [] => (false, h, w)
  | a :: buffer => (true, set_tasks_buffer buffer h, _run_task a w)
  end.

(** The correlation tables of the two request/response handlers. *)
Record BlockingRequestResponseHandler : Type := mkBlocking {
  b_exchange : string;
  b_queue : string;
  _response_queues : gmap string (list json);
}.


Definition set_response_queues (t : gmap string (list json))
    (h : BlockingRequestResponseHandler) : BlockingRequestResponseHandler :=
  mkBlocking (b_exchange h) (b_queue h) t.

(** The keyword arguments that [_RequestResponseHandlerBase.publish] gives
    to [connection.publish]; [body] is the encoded message. *)
Definition rpc_message (exchange queue body cid routing_key : string)
    (expiration : option string) : kwargs :=
  [("exchange", exchange);
   ("body", body);
   ("properties.reply_to", queue);
   ("properties.correlation_id", cid);
   ("properties.expiration", default "None" expiration);
   ("routing_key", routing_key)].

Section Handlers.
(** [json.loads] and [json.dumps] are the standard library's.
    [json_loads body = None] stands for the [ValueError] that
    [json.loads] raises on a body that is not valid JSON. *)
Variable json_loads : string -> option json.
Variable json_dumps : json -> string.

(** [TaskConsumer.process(channel, method, properties, body)]. *)
Definition TaskConsumer_process (chan : channel) (method : Deliver)
    (properties : BasicProperties) (body : string)
    (self : TaskConsumer) (w : World) : TaskConsumer * World :=
  match json_loads body with
  | None => (self, add_log "ERROR" ("Error parsing task: " +:+ body) w)
  | Some full_task =>
      let args : task_args := (chan, properties, full_task, delivery_tag method) in
      match sem_acquire self with
      | (true, self) => (self, _run_task args w)
      | (false, self) =>
          (set_tasks_buffer (_tasks_buffer self ++ [args]) self, w)
      end
  end.

(** [_RequestResponseHandlerBase.publish(message, correlation_id,
    routing_key, expiration)]: a waiting [connection.publish]. *)
Definition Base_publish {X : Type}
    (others : X * AMQPConnection * World -> X * AMQPConnection * World)
    (caller : thread_id) (exchange queue : string)
    (message : json) (cid : string) (routing_key : string)
    (expiration : option Z)
    (x : X) (conn : AMQPConnection) (w : World)
  : outcome unit * X * AMQPConnection * World :=
  let expiration := pretty <$> expiration in
  publish others caller
    (mkMessage None
       (rpc_message exchange queue (json_dumps message) cid routing_key expiration)
       eq_refl)
    true None x conn w.

(** [BlockingRequestResponseHandler.publish(message, correlation_id,
    routing_key, expiration, timeout)] called from thread [caller].
    [uuid] is the value that [uuid.uuid4().hex] would give.  [sending] is
    what the other threads do while the caller waits for the publish to
    be confirmed, [waiting] what they do while it waits for the response. *)
Definition Blocking_publish
    (sending waiting :
       BlockingRequestResponseHandler * AMQPConnection * World ->
       BlockingRequestResponseHandler * AMQPConnection * World)
    (caller : thread_id) (uuid : string)
    (message : json) (correlation_id : option string) (routing_key : string)
    (expiration : option Z) (timeout : option Z)
    (self : BlockingRequestResponseHandler) (conn : AMQPConnection) (w : World)
  : outcome json * BlockingRequestResponseHandler * AMQPConnection * World :=
  let cid := default uuid correlation_id in
  let self := set_response_queues (<[cid := []]> (_response_queues self)) self in
  match Base_publish sending caller (b_exchange self) (b_queue self)
          message cid routing_key expiration self conn w with
  | (Returns _, self, conn, w) =>
      let '(self, conn, w) := waiting (self, conn, w) in
      (* try: resp = self._response_queues[correlation_id].get(timeout) *)
      let '(r, self) :=
        match _response_queues self !! cid with
        | None => (Raises (KeyError cid), self)
        | Some q =>
            match Queue.get timeout q with
            | Returns (resp, rest) =>
                (Returns resp,
                 set_response_queues (<[cid := rest]> (_response_queues self)) self)
            | Raises QueueEmpty =>
                (Raises (RuntimeError ("No response received for task " +:+ cid)),
                 self)
            | Raises e => (Raises e, self)
            | Blocks => (Blocks, self)
            end
        end in
      (* finally: del self._response_queues[correlation_id] *)
      match r with
      | Blocks => (Blocks, self, conn, w)
      | _ =>
          match _response_queues self !! cid with
          | None => (Raises (KeyError cid), self, conn, w)
          | Some _ =>
              (r, set_response_queues (delete cid (_response_queues self)) self,
               conn, w)
          end
      end
  | (Raises e, self, conn, w) => (Raises e, self, conn, w)
  | (Blocks, self, conn, w) => (Blocks, self, conn, w)
  end.

(** [BlockingRequestResponseHandler.process(channel, method, properties,
    body)], run by the consumer thread. *)
Definition Blocking_process (broker : nat -> option exn)
    (chan : channel) (method : Deliver) (properties : BasicProperties)
    (body : string) (self : BlockingRequestResponseHandler) (w : World)
  : outcome unit * BlockingRequestResponseHandler * World :=
  match invoke broker chan "basic_ack"
          [("delivery_tag", pretty (delivery_tag method))] w with
  | (Some e, w) => (Raises e, self, w)
  | (None, w) =>
      match json_loads body with
      | None =>
          (Returns tt, self, add_log "ERROR" ("Error parsing response: " +:+ body) w)
      | Some response =>
          match correlation_id properties with
          | Some cid =>
              match _response_queues self !! cid with
              | Some q =>
                  (Returns tt,
                   set_response_queues
                     (<[cid := Queue.put response q]> (_response_queues self)) self,
                   w)
              | None => (Returns tt, self, w)
              end
          | None => (Returns tt, self, w)
          end
      end
  end.



End Handlers.

(** * Vocabulary of the statements *)

(** A connect attempt that [_get_pika_connection] answers with a sleep: the
    broker connection could not be opened. *)
Definition failing (att : attempt) : Prop :=
  exists e, att_raises att = Some e /\ is_AMQPConnectionError e = true.

(** One call of [_get_pika_connection]: what the network answers, and the
    arguments of the call. *)
Record dial : Type := mkDial {
  dial_attempt : attempt;
  dial_params : ConnectionParameters;
  dial_deadline : option Z;
}.

(** A run of connect attempts, one call of [_get_pika_connection] each,
    whether they are made by one [connect] or by several. *)
Fixpoint attempts_run (calls : list dial) (self : AMQPConnection) (w : World)
  : AMQPConnection * World :=
  match calls with
  | [] => (self, w)
  | d :: calls =>
      let '(_, self, w) :=
        _get_pika_connection (dial_attempt d) (dial_params d) (dial_deadline d)
          self w in
      attempts_run calls self w
  end.

(** A generator that has a host to hand out. *)
Definition has_hosts (rand : nat -> nat) (self : AMQPConnection) : Prop :=
  match _connection_params self with
  | GenCreated => gen_hosts rand (raw_host_of self) <> []
  | GenYielded hosts _ _ => hosts <> []
  end.

(** The sleep before the retry that follows the [i]-th failure in a row,
    counting from 0. *)
Definition backoff_law (i : nat) : Z :=
  if (i <? 5)%nat then 2 ^ Z.of_nat i else 30.

Definition backoff_seq (n : nat) : list Z := map backoff_law (seq 0 n).

Definition refused_attempt : attempt :=
  refused (AMQPConnectionError "Connection refused").

(** A refused and an accepted call on host [h], under the deadline [d]. *)
Definition refused_on (h : string) (d : option Z) : dial :=
  mkDial refused_attempt (mkParams h 5672 "/") d.
Definition accepted_on (h : string) (d : option Z) : dial :=
  mkDial accepted (mkParams h 5672 "/") d.

(** Seven refused calls on rotating hosts, and three more. *)
Definition seven_refusals : list dial :=
  [refused_on "h1" (Some 100); refused_on "h2" (Some 100);
   refused_on "h3" (Some 100); refused_on "h1" (Some 100);
   refused_on "h2" (Some 100); refused_on "h3" (Some 100);
   refused_on "h1" (Some 100)].
Definition three_refusals : list dial :=
  [refused_on "h3" None; refused_on "h1" None; refused_on "h2" None].

Definition localhost_params : ConnectionParameters :=
  mkParams "localhost" 5672 "/".

(** The envelope of a waiting call, and the connection with it enqueued. *)
Definition waiting_envelope (method : string) (chan : option channel)
    (message : kwargs) (w : World) : envelope :=
  mkEnvelope method message (Some (fresh (dom (slots w)))) chan.

Definition enqueued (e : envelope) (self : AMQPConnection) : AMQPConnection :=
  set_tasks_queue (Queue.put e (_connection_tasks_queue self)) self.

(** What the broker sees of an envelope sent on out-channel [chan]. *)
Definition delivery (chan : channel) (e : envelope) : channel * string * kwargs :=
  (default chan (env_channel e), env_method e, env_message e).

(** Two fire-and-forget publishes, and a broker connection that drops on
    the first channel method and works from then on. *)
Definition E1 : envelope := mkEnvelope "publish" [("body", "1")] None None.
Definition E2 : envelope := mkEnvelope "publish" [("body", "2")] None None.

Definition drops_first (n : nat) : option exn :=
  match n with
  | O => Some ConnectionClosed
  | S _ => None
  end.

(** The consumer thread connects; a producer has put [E1] then [E2]; the
    first drain loses the connection on [E1]; the loop reconnects and
    drains again; then another thread closes the connection. *)
Definition lossy_run : option (outcome unit * AMQPConnection * World) :=
  consume (fun _ => 0%nat) drops_first [accepted]
    [ mkPass (fun '(c, w) => (enqueued E2 (enqueued E1 c), w)) None [accepted];
      mkPass (fun s => s) None [];
      mkPass (fun '(c, w) => (set_closed true c, w)) None [] ]
    (AMQPConnection_init [] (HostStr "localhost") localhost_params (Some 10))
    world0.

Definition E0 : envelope := mkEnvelope "publish" [("body", "0")] None None.

Definition drops_second (n : nat) : option exn :=
  match n with
  | 1%nat => Some ConnectionClosed
  | _ => None
  end.

(** A decoder that knows four documents and rejects every other body; it
    agrees with [json.loads] on the bodies of the examples below. *)
Definition loads_literal (body : string) : option json :=
  if String.eqb body "null" then Some JNull
  else if String.eqb body "true" then Some (JBool true)
  else if String.eqb body "false" then Some (JBool false)
  else if String.eqb body "{}" then Some (JObj [])
  else None.

Definition dumps_literal (j : json) : string :=
  match j with
  | JNull => "null"
  | JBool true => "true"
  | JBool false => "false"
  | _ => "{}"
  end.

Definition no_properties : BasicProperties := mkProperties None None None.

(** The consumer thread drains the outbound queue on [chan] while a caller
    waits. *)
Definition actor_drains {X : Type} (broker : nat -> option exn) (chan : channel)
  : X * AMQPConnection * World -> X * AMQPConnection * World :=
  fun '(x, conn, w) =>
    let '(_, conn, w) := _process_publish broker chan conn w in (x, conn, w).

(** The consumer thread hands one delivery to the blocking handler while a
    caller waits. *)
Definition reply_arrives (json_loads : string -> option json)
    (broker : nat -> option exn) (chan : channel) (method : Deliver)
    (properties : BasicProperties) (body : string)
  : BlockingRequestResponseHandler * AMQPConnection * World ->
    BlockingRequestResponseHandler * AMQPConnection * World :=
  fun '(h, conn, w) =>
    let '(_, h, w) :=
      Blocking_process json_loads broker chan method properties body h w in
    (h, conn, w).

(** The handler just after [self._response_queues[cid] = Queue.Queue()]. *)
Definition awaiting (cid : string) (self : BlockingRequestResponseHandler)
  : BlockingRequestResponseHandler :=
  set_response_queues (<[cid := []]> (_response_queues self)) self.

Definition rpc_handler : BlockingRequestResponseHandler :=
  mkBlocking "rpc" "rpc_response_0" ∅.

Definition healthy (n : nat) : option exn := None.




(** The hosts of the first [n] objects that the generator hands out from
    state [g], each read off the object when it is handed out; [None] when
    one of the [next] calls does not return. *)
Fixpoint hosts_yielded (n : nat) (rand : nat -> nat) (raw : raw_host)
    (pika_params : ConnectionParameters) (g : params_gen) : option (list string) :=
  match n with
  | O => Some []
  | S n =>
      match gen_next 1 rand raw pika_params g with
      | Some g' =>
          match yielded g' with
          | Some params =>
              cons (host params) <$> hosts_yielded n rand raw pika_params g'
          | None => None
          end
      | None => None
      end
  end.

(** * Further vocabulary *)

(** The number of envelopes of [q] whose reply queue is [s]. *)
Definition waiters (s : slot_ref) (q : list envelope) : nat :=
  length (filter (fun e => env_err_queue e = Some s) q).

(** The reply queues that the envelopes of [q] refer to exist in [w]. *)
Definition replies_exist (w : World) (q : list envelope) : Prop :=
  Forall (fun e => forall r, env_err_queue e = Some r -> r ∈ dom (slots w)) q.

(** A broker that raises [e] on its [n]-th channel method only. *)
Definition raises_at (n : nat) (e : exn) (i : nat) : option exn :=
  if decide (i = n) then Some e else None.

(** The refusals [atts], met from stored backoff number [i] at time [t],
    are all retried: after the sleep that follows each of them, the
    deadline has not passed. *)
Fixpoint retried (deadline : option Z) (t : Z) (i : nat) (atts : list attempt)
  : bool :=
  match atts with
  | [] => true
  | att :: atts =>
      let t' := t + att_elapsed att + backoff_law i in
      negb (deadline_passed deadline t') && retried deadline t' (S i) atts
  end.

(** The time at which the refusals [atts] have all been slept off. *)
Fixpoint time_after (t : Z) (i : nat) (atts : list attempt) : Z :=
  match atts with
  | [] => t
  | att :: atts => time_after (t + att_elapsed att + backoff_law i) (S i) atts
  end.

(** The deadline that [connect] computes when it starts at time [t]. *)
Definition connect_deadline (self : AMQPConnection) (t : Z) : option Z :=
  match _connect_timeout self with
  | Some timeout => Some (t + timeout)
  | None => None
  end.

(** What the new consumer thread does until [connect] has set the event. *)
Definition thread_connects (rand : nat -> nat) (atts : list attempt)
  : AMQPConnection * World -> AMQPConnection * World :=
  fun '(self, w) =>
    let '(_, self, w, _) := connect rand atts self w in (self, w).

(** The generator after [n] calls of [next], when they all return. *)
Fixpoint gen_advance (n : nat) (rand : nat -> nat) (raw : raw_host)
    (pika_params : ConnectionParameters) (g : params_gen) : option params_gen :=
  match n with
  | O => Some g
  | S n =>
      match gen_next 1 rand raw pika_params g with
      | Some g' => gen_advance n rand raw pika_params g'
      | None => None
      end
  end.

(** * The worker side of the task consumer *)

(** [self._sem.release()]. *)
Definition sem_release (h : TaskConsumer) : TaskConsumer :=
  set_sem (S (_sem h)) h.

(** The last statement of [_process_message]:
    [if not self._maybe_run_next_task(): self._sem.release()]. *)
Definition worker_exit (h : TaskConsumer) (w : World) : TaskConsumer * World :=
  match _maybe_run_next_task h w with
  | (true, h, w) => (h, w)
  | (false, h, w) => (sem_release h, w)
  end.

(** The line feed in the text of a log record. *)
Definition nl : string := String (Ascii.ascii_of_nat 10) EmptyString.

(** The keyword arguments of the reply that [_process_message] publishes. *)
Definition reply_message (exchange reply_to : string)
    (correlation_id : option string) (body : string) : kwargs :=
  [("exchange", exchange);
   ("routing_key", reply_to);
   ("properties.correlation_id", default "None" correlation_id);
   ("body", body)].

Section Worker.
(** [handle_task] is what a subclass makes of a task: the result it
    returns or the exception it raises.  [repr] and [format_task] are
    Python's [repr] of an exception and [str] of a decoded task. *)
Variable json_dumps : json -> string.
Variable handle_task : json -> json + exn.
Variable repr : exn -> string.
Variable format_task : json -> string.

(** The result that stands for an exception of [handle_task]. *)
Definition error_result (e : exn) : json :=
  JObj [("ok", JBool false); ("error", JStr (repr e))].

(** [_process_message(channel, properties, full_task, delivery_tag)], run
    by the worker thread [caller].  [others] is what the other threads do
    while the worker waits for one of its envelopes to be confirmed. *)
Definition _process_message
    (others : TaskConsumer * AMQPConnection * World ->
              TaskConsumer * AMQPConnection * World)
    (caller : thread_id) (chan : channel) (properties : BasicProperties)
    (full_task : json) (tag : nat)
    (self : TaskConsumer) (conn : AMQPConnection) (w : World)
  : outcome unit * TaskConsumer * AMQPConnection * World :=
  let acked :=
    if late_ack self then (Returns tt, self, conn, w)
    else ack others caller chan tag true None self conn w in
  match acked with
  | (Returns _, self, conn, w) =>
      let handled :=
        match handle_task full_task with
        | inl result => Returns (result, w)
        | inr e =>
            if is_Exception e then
              Returns (error_result e,
                       add_log "ERROR"
                         ("ERROR - failed message processing: " +:+ repr e
                          +:+ nl +:+ "body: " +:+ format_task full_task) w)
            else Raises e
        end in
      match handled with
      | Returns (result, w) =>
          let acked :=
            if late_ack self
            then ack others caller chan tag true None self conn w
            else (Returns tt, self, conn, w) in
          match acked with
          | (Returns _, self, conn, w) =>
              let replied :=
                match reply_to properties with
                | Some r =>
                    if String.eqb r EmptyString then (Returns tt, self, conn, w)
                    else publish others caller
                           (mkMessage None
                              (reply_message (tc_exchange self) r
                                 (correlation_id properties) (json_dumps result))
                              eq_refl)
                           true None self conn w
                | None => (Returns tt, self, conn, w)
                end in
              match replied with
              | (Returns _, self, conn, w) =>
                  let '(self, w) := worker_exit self w in
                  (Returns tt, self, conn, w)
              | failed => failed
              end
          | failed => failed
          end
      | Raises e => (Raises e, self, conn, w)
      | Blocks => (Blocks, self, conn, w)
      end
  | failed => failed
  end.
End Worker.

(** What happens to the pool: a delivery reaches [process], or a worker
    comes to the end of [_process_message]. *)
Inductive pool_event : Type :=
| Delivered (chan : channel) (method : Deliver) (properties : BasicProperties)
    (body : string)
| WorkerDone.

(** The pool with the number of workers that have come to their end. *)
Definition pool_state : Type := (TaskConsumer * World * nat)%type.

(** The workers that have been started and have not come to their end. *)
Definition running (s : pool_state) : nat := (length (workers s.1.2) - s.2)%nat.

(** One event; a [WorkerDone] with no worker running does not happen. *)
Definition pool_step (json_loads : string -> option json) (s : pool_state)
    (ev : pool_event) : pool_state :=
  let '(h, w, done) := s in
  match ev with
  | Delivered chan method properties body =>
      let '(h, w) := TaskConsumer_process json_loads chan method properties body h w in
      (h, w, done)
  | WorkerDone =>
      if (done <? length (workers w))%nat then
        let '(h, w) := worker_exit h w in (h, w, S done)
      else s
  end.

Definition pool_run (json_loads : string -> option json) (s : pool_state)
    (evs : list pool_event) : pool_state :=
  foldl (pool_step json_loads) s evs.

(** The pool of a new consumer, with no worker running. *)
Definition pool_init (queue : string) (size : nat) (w : World) : pool_state :=
  (TaskConsumer_init queue size, w, length (workers w)).





(** The ack that the broker gets for delivery [tag] on [chan]. *)
Definition ack_sent (chan : channel) (tag : nat) : channel * string * kwargs :=
  (chan, "basic_ack", [("delivery_tag", pretty tag)]).

Definition dying_handler (t : json) : json + exn :=
  inr (OtherBaseException "SystemExit").
Definition repr_class (e : exn) : string :=
  match e with
  | ValueError _ => "ValueError"
  | _ => "Exception"
  end.

(** A delivery that asks for a reply. *)
Definition asking : BasicProperties := mkProperties (Some "client") (Some "c7") None.

(** * Deliveries on a reply queue *)

(** A delivery: its method frame, its properties and its body. *)
Record reply : Type := mkReply {
  reply_method : Deliver;
  reply_properties : BasicProperties;
  reply_body : string;
}.

(** The consumer thread hands the deliveries [rs], oldest first, to the
    blocking handler while a caller waits. *)
Definition replies_arrive (json_loads : string -> option json)
    (broker : nat -> option exn) (chan : channel) (rs : list reply)
  : BlockingRequestResponseHandler * AMQPConnection * World ->
    BlockingRequestResponseHandler * AMQPConnection * World :=
  fun s =>
    foldl (fun s r =>
             reply_arrives json_loads broker chan (reply_method r)
               (reply_properties r) (reply_body r) s)
          s rs.


(** The document that delivery [r] carries for correlation-ID [cid]. *)
Definition carries (json_loads : string -> option json) (cid : string)
    (r : reply) : option json :=
  if decide (correlation_id (reply_properties r) = Some cid)
  then json_loads (reply_body r)
  else None.


(** Two callers wait, "c1" and "c2"; the replies come in the other order,
    after one for a caller long gone and one that does not decode. *)
Definition crossed_replies : list reply :=
  [mkReply (mkDeliver 1) (mkProperties None (Some "c0") None) "null";
   mkReply (mkDeliver 2) (mkProperties None (Some "c1") None) "not json{";
   mkReply (mkDeliver 3) (mkProperties None (Some "c2") None) "false";
   mkReply (mkDeliver 4) (mkProperties None (Some "c1") None) "true"].

(** * Channels, handlers and options *)




(** The truth value of a host argument: [None], [''] and [[]] are false. *)
Definition host_given (amqp_host : option raw_host) : bool :=
  match amqp_host with
  | None | Some (HostStr EmptyString) | Some (HostSeq []) => false
  | Some _ => true
  end.

(** The values of the module [broker_config] that [AMQPParams] falls back
    on. *)
Record broker_config : Type := mkBrokerConfig {
  broker_hostname : raw_host;
  broker_port : Z;
  broker_vhost : string;
}.

(** What [AMQPParams.__init__] keeps of the host, the port and the virtual
    host: [x or broker_config.y] takes the configured value when [x] is
    [None], zero or empty. *)
Record AMQPParams : Type := mkAMQPParams {
  params_raw_host : raw_host;   (* self.raw_host *)
  params_port : Z;
  params_virtual_host : string;
}.

Definition AMQPParams_init (cfg : broker_config) (amqp_host : option raw_host)
    (amqp_port : option Z) (amqp_vhost : option string) : AMQPParams :=
  {| params_raw_host :=
       if host_given amqp_host
       then default (broker_hostname cfg) amqp_host
       else broker_hostname cfg;
     params_port :=
       match amqp_port with
       | Some p => if p =? 0 then broker_port cfg else p
       | None => broker_port cfg
       end;
     params_virtual_host :=
       match amqp_vhost with
       | Some v => if String.eqb v EmptyString then broker_vhost cfg else v
       | None => broker_vhost cfg
       end |}.

(** [AMQPParams.as_pika_params()]: pika's own default for the host, which
    the generator overwrites. *)
Definition AMQPParams_as_pika_params (p : AMQPParams) : ConnectionParameters :=
  mkParams "localhost" (params_port p) (params_virtual_host p).

(** [get_client(amqp_host, ..., connect_timeout)]: a connection without
    handlers. *)
Definition get_client (cfg : broker_config) (amqp_host : option raw_host)
    (amqp_port : option Z) (amqp_vhost : option string)
    (connect_timeout : option Z) : AMQPConnection :=
  let amqp_params := AMQPParams_init cfg amqp_host amqp_port amqp_vhost in
  AMQPConnection_init [] (params_raw_host amqp_params)
    (AMQPParams_as_pika_params amqp_params) connect_timeout.

(** * Calls that do not wait *)

(** A call [channel_method(method, channel=chan, wait=False,
    timeout=timeout, ...)] made from thread [sub_caller]. *)
Record submission : Type := mkSubmission {
  sub_caller : thread_id;
  sub_method : string;
  sub_channel : option channel;
  sub_timeout : option Z;
  sub_message : kwargs;
}.

(** The calls [subs], made one after the other; the outcomes of the calls
    come first. *)
Fixpoint submit_all (subs : list submission) (self : AMQPConnection) (w : World)
  : list (outcome unit) * AMQPConnection * World :=
  match subs with
  | [] => ([], self, w)
  | s :: subs =>
      let '(r, _, self, w) :=
        channel_method (fun st => st) (sub_caller s) (sub_method s)
          (sub_channel s) false (sub_timeout s) (sub_message s) tt self w in
      let '(rs, self, w) := submit_all subs self w in
      (r :: rs, self, w)
  end.

(** The envelope of a call that does not wait: no reply queue. *)
Definition unwaited (s : submission) : envelope :=
  mkEnvelope (sub_method s) (sub_message s) None (sub_channel s).

(** * Properties *)

(** ** Backoff *)

Lemma backoff_law_step (i : nat) :
  Z.min (backoff_law i * 2) MAX_BACKOFF = backoff_law (S i).
Proof.
  unfold backoff_law, MAX_BACKOFF.
  destruct i as [|[|[|[|[|i]]]]]; try reflexivity.
Qed.

Lemma backoff_law_bounds (i : nat) : 1 <= backoff_law i <= 30.
Proof.
  unfold backoff_law.
  destruct i as [|[|[|[|[|i]]]]]; simpl; lia.
Qed.

Lemma failing_step att params deadline self w :
  failing att ->
  exists r,
    _get_pika_connection att params deadline self w =
      (r,
       set_reconnect_backoff
         (Z.min (_reconnect_backoff self * 2) MAX_BACKOFF) self,
       time_sleep (_reconnect_backoff self)
         (set_now (now w + att_elapsed att) (add_dialled (host params) w))).
Proof.
  intros (e & He & Hc). unfold _get_pika_connection.
  rewrite He, Hc. cbn [_get_reconnect_backoff].
  destruct (deadline_passed _ _); eauto.
Qed.

(** From the [i]-th step of the law onwards, a run of failures sleeps as
    the law says and leaves the stored backoff at the next step. *)
Lemma attempts_run_failing calls : forall i self w,
  Forall (fun d => failing (dial_attempt d)) calls ->
  _reconnect_backoff self = backoff_law i ->
  slept (attempts_run calls self w).2
    = slept w ++ map backoff_law (seq i (length calls))
  /\ _reconnect_backoff (attempts_run calls self w).1
    = backoff_law (i + length calls).
Proof.
  induction calls as [|d calls IH]; intros i self w Hall Hb.
  - cbn. rewrite app_nil_r, Nat.add_0_r. auto.
  - apply Forall_cons in Hall as [Hatt Hall].
    destruct (failing_step (dial_attempt d) (dial_params d) (dial_deadline d)
                self w Hatt) as [r Hr].
    cbn [attempts_run]. rewrite Hr.
    match goal with
    | |- context [attempts_run calls ?s ?v] =>
        destruct (IH (S i) s v Hall) as [IH1 IH2]
    end.
    { cbn. rewrite Hb. apply backoff_law_step. }
    split.
    + rewrite IH1. cbn. rewrite Hb, <- app_assoc. reflexivity.
    + rewrite IH2. f_equal. cbn [length]. lia.
Qed.

Lemma accepted_step att params deadline self w :
  att_raises att = None ->
  _get_pika_connection att params deadline self w =
    (Returns (Some (length (dialled w))),
     set_closed false (set_reconnect_backoff 1 self),
     set_now (now w + att_elapsed att) (add_dialled (host params) w)).
Proof. intros H. unfold _get_pika_connection. rewrite H. reflexivity. Qed.

Lemma attempts_run_app calls1 calls2 self w :
  attempts_run (calls1 ++ calls2) self w =
  attempts_run calls2 (attempts_run calls1 self w).1 (attempts_run calls1 self w).2.
Proof.
  revert self w. induction calls1 as [|d calls1 IH]; intros self w; [reflexivity|].
  cbn [app attempts_run].
  destruct (_get_pika_connection _ _ _ self w) as [[r s] w0].
  apply IH.
Qed.

(** The stored backoff stays between 1 and [MAX_BACKOFF], whatever the
    attempts do. *)
Lemma backoff_invariant att params deadline self w :
  1 <= _reconnect_backoff self <= MAX_BACKOFF ->
  1 <= _reconnect_backoff (_get_pika_connection att params deadline self w).1.2
    <= MAX_BACKOFF.
Proof.
  unfold _get_pika_connection, MAX_BACKOFF. intros Hb.
  destruct (att_raises att) as [e|]; [|cbn; lia].
  destruct (is_AMQPConnectionError e); [|cbn; lia].
  cbn [_get_reconnect_backoff].
  destruct (deadline_passed _ _); cbn; unfold MAX_BACKOFF; lia.
Qed.

Lemma attempts_run_invariant calls : forall self w,
  1 <= _reconnect_backoff self <= MAX_BACKOFF ->
  1 <= _reconnect_backoff (attempts_run calls self w).1 <= MAX_BACKOFF.
Proof.
  induction calls as [|d calls IH]; intros self w Hb; [exact Hb|].
  cbn [attempts_run].
  pose proof (backoff_invariant (dial_attempt d) (dial_params d)
                (dial_deadline d) self w Hb) as H.
  destruct (_get_pika_connection _ _ _ self w) as [[r s] w0].
  apply IH. exact H.
Qed.

(** A generator with a host hands out an object and still has its hosts. *)
Lemma has_hosts_next rand self :
  has_hosts rand self ->
  exists hosts rest params,
    gen_next 1 rand (raw_host_of self) (as_pika_params self)
      (_connection_params self) = Some (GenYielded hosts rest params)
    /\ hosts <> [].
Proof.
  unfold has_hosts, gen_next.
  destruct (_connection_params self) as [|hosts rest params].
  - destruct (gen_hosts rand (raw_host_of self)) as [|h t]; [congruence|].
    intros H. cbn. eauto.
  - destruct rest as [|r rest]; [destruct hosts as [|h t]; [congruence|]|];
      intros H; cbn; eauto.
Qed.

(** The same on [connect] itself (scenario S1): with a host to dial and no
    connect timeout, [connect] sleeps through [n] refusals as the law says,
    returns the out-channel of the connection that is accepted, and leaves
    the stored backoff at 1. *)
Lemma connect_loop_after_refusals rand atts : forall i ok rest self w,
  Forall failing atts ->
  att_raises ok = None ->
  _reconnect_backoff self = backoff_law i ->
  has_hosts rand self ->
  exists c self' w',
    connect_loop rand (atts ++ ok :: rest) None self w
      = (Some (Returns c), self', w', rest)
    /\ slept w' = slept w ++ map backoff_law (seq i (length atts))
    /\ _reconnect_backoff self' = 1
    /\ _closed self' = false.
Proof.
  induction atts as [|att atts IH]; intros i ok rest self w Hall Hok Hb Hg;
    destruct (has_hosts_next rand self Hg) as (hosts & tl & params & Hn & Hne);
    cbn [app connect_loop]; rewrite Hn; cbn [yielded default].
  - rewrite (accepted_step _ _ _ _ _ Hok).
    eexists _, _, _. split; [reflexivity|]. cbn. rewrite app_nil_r. auto.
  - apply Forall_cons in Hall as [Hatt Hall].
    match goal with
    | |- context [_get_pika_connection att ?p None ?s w] =>
        destruct (failing_step att p None s w Hatt) as [r Hr]; rewrite Hr;
        unfold _get_pika_connection in Hr
    end.
    destruct Hatt as (e & He & Hc). rewrite He, Hc in Hr.
    cbn in Hr. injection Hr as <-.
    edestruct (IH (S i) ok rest) as (c & self' & w' & -> & Hs & Hb' & Hcl);
      [exact Hall|exact Hok| |exact Hne|].
    { cbn. rewrite Hb. apply backoff_law_step. }
    exists c, self', w'. split; [reflexivity|]. split; [|auto].
    rewrite Hs. cbn. rewrite Hb, <- app_assoc. reflexivity.
Qed.

Lemma connect_after_refusals rand atts ok rest self w :
  Forall failing atts ->
  att_raises ok = None ->
  _reconnect_backoff self = 1 ->
  _connect_timeout self = None ->
  has_hosts rand self ->
  exists c self' w',
    connect rand (atts ++ ok :: rest) self w
      = (Some (Returns (c, 1%nat)), self', w', rest)
    /\ slept w' = slept w ++ backoff_seq (length atts)
    /\ _reconnect_backoff self' = 1
    /\ connect_wait self' = true.
Proof.
  intros Hall Hok Hb Ht Hg. unfold connect.
  cbn [_connect_timeout set_pika_connection set_error]. rewrite Ht.
  edestruct (connect_loop_after_refusals rand atts 0 ok rest
               (set_pika_connection None (set_error None self)) w)
    as (c & self' & w' & -> & Hs & Hb' & _); try eassumption.
  eexists c, (set_connect_wait true self'), _.
  split; [reflexivity|]. cbn. auto.
Qed.

(** C2. In a run of consecutive failed connect attempts that starts from a
    stored backoff of 1 (the value set by [__init__] and by every
    successful attempt), the sleeps are 1, 2, 4, 8, 16, 30, 30, ... seconds:
    the [i]-th is [2^i] for [i < 5] and 30 from then on.  A successful
    attempt sets the stored backoff to 1 again, so that the failures after
    it sleep 1, 2, 4, ... once more; the stored backoff never exceeds 30. *)
Theorem reconnect_backoff_law calls1 ok calls2 self w :
  _reconnect_backoff self = 1 ->
  Forall (fun d => failing (dial_attempt d)) calls1 ->
  att_raises (dial_attempt ok) = None ->
  Forall (fun d => failing (dial_attempt d)) calls2 ->
  slept (attempts_run (calls1 ++ ok :: calls2) self w).2 =
    slept w ++ backoff_seq (length calls1) ++ backoff_seq (length calls2)
  /\ _reconnect_backoff (attempts_run (calls1 ++ [ok]) self w).1 = 1
  /\ 1 <= _reconnect_backoff (attempts_run (calls1 ++ ok :: calls2) self w).1 <= 30
  /\ backoff_seq 7 = [1; 2; 4; 8; 16; 30; 30]
  /\ (forall i, (5 <= i)%nat -> backoff_law i = 30).
Proof.
  intros Hb H1 Hok H2.
  destruct (attempts_run_failing calls1 0 self w H1 Hb) as [S1 B1].
  pose proof (attempts_run_invariant (calls1 ++ ok :: calls2) self w) as Hinv.
  rewrite !attempts_run_app in *.
  destruct (attempts_run calls1 self w) as [self1 w1]. cbn [fst snd] in *.
  cbn [attempts_run] in *. rewrite (accepted_step _ _ _ _ _ Hok) in *.
  repeat split.
  - destruct (attempts_run_failing calls2 0
      (set_closed false (set_reconnect_backoff 1 self1))
      (set_now (now w1 + att_elapsed (dial_attempt ok))
         (add_dialled (host (dial_params ok)) w1))
      H2 eq_refl) as [S2 _].
    rewrite S2. cbn. rewrite S1.
    unfold backoff_seq. rewrite <- app_assoc. reflexivity.
  - apply Hinv. rewrite Hb. unfold MAX_BACKOFF. lia.
  - apply Hinv. rewrite Hb. unfold MAX_BACKOFF. lia.
  - intros i Hi. unfold backoff_law.
    destruct (Nat.ltb_spec i 5); [lia|reflexivity].
Qed.

Lemma refused_attempt_failing : failing refused_attempt.
Proof. exists (AMQPConnectionError "Connection refused"). split; reflexivity. Qed.

(** Seven refusals on rotating hosts, an accepted connection, three
    refusals more. *)
Lemma reconnect_backoff_law_witness :
  slept (attempts_run
           (seven_refusals ++ accepted_on "h2" (Some 100) :: three_refusals)
           (AMQPConnection_init [] (HostSeq ["h1"; "h2"; "h3"]) localhost_params
              (Some 100))
           world0).2
    = [1; 2; 4; 8; 16; 30; 30; 1; 2; 4].
Proof.
  refine (proj1 (reconnect_backoff_law seven_refusals
    (accepted_on "h2" (Some 100)) three_refusals
    (AMQPConnection_init [] (HostSeq ["h1"; "h2"; "h3"]) localhost_params
       (Some 100))
    world0 eq_refl _ eq_refl _));
  repeat constructor; apply refused_attempt_failing.
Defined.

(** Scenario S1: the broker refuses three connects and accepts the fourth. *)
Example connect_after_three_refusals :
  let '(r, self, w, _) :=
    connect (fun _ => 0%nat)
      [refused_attempt; refused_attempt; refused_attempt; accepted]
      (AMQPConnection_init [] (HostStr "localhost") localhost_params (Some 10))
      world0 in
  r = Some (Returns (3%nat, 1%nat)) /\ slept w = [1; 2; 4] /\ now w = 7
  /\ _reconnect_backoff self = 1.
Proof. vm_compute. repeat split. Qed.

(** ** The closed flag *)

Lemma connect_loop_returns_open rand atts : forall deadline self w c self' w' rest,
  connect_loop rand atts deadline self w = (Some (Returns c), self', w', rest) ->
  _closed self' = false.
Proof.
  induction atts as [|att atts IH]; intros deadline self w c self' w' rest H;
    cbn [connect_loop] in H; [discriminate|].
  destruct (gen_next _ _ _ _ _) as [g|]; [|discriminate].
  unfold _get_pika_connection in H.
  destruct (att_raises att) as [e|].
  - destruct (is_AMQPConnectionError e); [|discriminate].
    cbn [_get_reconnect_backoff] in H.
    destruct (deadline_passed _ _); [discriminate|].
    eapply IH. exact H.
  - injection H as <- <- <- <-. reflexivity.
Qed.

Lemma connect_returns_open rand atts self w ch self' w' rest :
  connect rand atts self w = (Some (Returns ch), self', w', rest) ->
  _closed self' = false.
Proof.
  unfold connect. intros H.
  destruct (connect_loop _ _ _ _ _) as [[[[[c|e|]|] s] w0] r] eqn:E;
    try discriminate.
  injection H as <- <- <- <-.
  apply connect_loop_returns_open in E. exact E.
Qed.

(** C9. A successful connect attempt leaves [_closed] at [False], whatever
    it was before: after [close()] has set the flag, an attempt that
    succeeds marks the connection open again, and so does every [connect()]
    that returns a channel. *)
Theorem successful_connect_reopens others att params deadline self w :
  att_raises att = None ->
  _closed (_get_pika_connection att params deadline self w).1.2 = false
  /\ _closed (close others false self w).1.2 = true
  /\ _closed
       (_get_pika_connection att params deadline
          (close others false self w).1.2 (close others false self w).2).1.2
     = false
  /\ (forall rand atts ch self' w' rest,
        connect rand atts (close others false self w).1.2 w
          = (Some (Returns ch), self', w', rest) ->
        _closed self' = false).
Proof.
  intros Hok. rewrite !(accepted_step _ _ _ _ _ Hok).
  repeat split.
  - unfold close. cbn. destruct (_consumer_thread self); reflexivity.
  - intros rand atts ch self' w' rest H.
    eapply connect_returns_open. exact H.
Qed.

(** A closed connection, and an attempt that the broker accepts. *)
Lemma successful_connect_reopens_witness :
  let self :=
    set_closed true
      (AMQPConnection_init [] (HostStr "localhost") localhost_params (Some 10)) in
  _closed self = true
  /\ _closed (_get_pika_connection accepted localhost_params None self world0).1.2
     = false.
Proof.
  split; [reflexivity|].
  exact (proj1 (successful_connect_reopens (fun s => s) accepted localhost_params
                  None _ world0 eq_refl)).
Defined.

(** ** The consumer thread and the hand-off *)

(** C10. When a consumer thread exists already, [consume_in_thread]
    returns [None] at once: no thread is started, the caller does not wait
    for [connect_wait] (the other threads get no turn), a stored [_error]
    is not raised, and the connection and everything around it are as
    before. *)
Theorem consume_in_thread_again others t self w :
  _consumer_thread self = Some t ->
  consume_in_thread others self w = (Returns None, self, w).
Proof. intros H. unfold consume_in_thread. rewrite H. reflexivity. Qed.

(** A connection whose consumer thread 0 died on a connect error, with the
    event not set: the second call neither blocks nor raises. *)
Lemma consume_in_thread_again_witness :
  let self :=
    set_error (Some (AMQPConnectionError "Connection refused"))
      (set_consumer_thread (Some 0%nat)
         (AMQPConnection_init [] (HostStr "localhost") localhost_params None)) in
  consume_in_thread (fun s => s) self world0 = (Returns None, self, world0).
Proof.
  intros self. exact (consume_in_thread_again (fun s => s) 0%nat self world0 eq_refl).
Defined.

(** The first call on the same connection does start a thread, and raises
    the error that the thread met. *)
Example consume_in_thread_first :
  let self := AMQPConnection_init [] (HostStr "localhost") localhost_params None in
  let dies '(x, w) :=
    (set_connect_wait true
       (set_error (Some (AMQPConnectionError "Connection refused")) x), w) in
  (consume_in_thread dies self world0).1.1
    = Raises (AMQPConnectionError "Connection refused")
  /\ started (consume_in_thread dies self world0).2 = [0%nat].
Proof. split; reflexivity. Qed.

(** C8. [channel_method] with [wait=True], called from the consumer
    thread itself, raises [RuntimeError] ("Cannot wait when sending from
    the connection thread") before anything is put on the queue: the
    connection, its outbound queue included, and the reply queues are
    unchanged, and the other threads get no turn. *)
Theorem channel_method_from_consumer_thread {X : Type}
    (others : X * AMQPConnection * World -> X * AMQPConnection * World)
    caller method chan timeout message (x : X) self w :
  _consumer_thread self = Some caller ->
  channel_method others caller method chan true timeout message x self w =
    (Raises (RuntimeError "Cannot wait when sending from the connection thread"),
     x, self, w)
  /\ _connection_tasks_queue
       (channel_method others caller method chan true timeout message x self w).1.2
     = _connection_tasks_queue self.
Proof.
  intros H. unfold channel_method.
  rewrite H, bool_decide_eq_true_2 by reflexivity. split; reflexivity.
Qed.

Lemma channel_method_from_consumer_thread_witness :
  let self :=
    set_consumer_thread (Some 7%nat)
      (AMQPConnection_init [] (HostStr "localhost") localhost_params None) in
  channel_method (fun s => s) 7%nat "publish" None true (Some 5)
      [("body", "{}")] tt self world0 =
    (Raises (RuntimeError "Cannot wait when sending from the connection thread"),
     tt, self, world0).
Proof.
  intros self.
  exact (proj1 (channel_method_from_consumer_thread (fun s => s) 7%nat "publish"
                  None (Some 5) [("body", "{}")] tt self world0 eq_refl)).
Defined.

(** From any other thread the same call does enqueue. *)
Example channel_method_from_other_thread :
  let self :=
    set_consumer_thread (Some 7%nat)
      (AMQPConnection_init [] (HostStr "localhost") localhost_params None) in
  _connection_tasks_queue
    (channel_method (fun s => s) 3%nat "publish" None true (Some 5)
       [("body", "{}")] tt self world0).1.2
  = [mkEnvelope "publish" [("body", "{}")] (Some 0%nat) None].
Proof. vm_compute. reflexivity. Qed.

(** A waiting call from another thread than the consumer thread, spelled
    out up to the wait on its reply queue. *)
Lemma channel_method_waits {X : Type}
    (others : X * AMQPConnection * World -> X * AMQPConnection * World)
    caller method chan timeout message (x : X) self w :
  _consumer_thread self <> Some caller ->
  channel_method others caller method chan true timeout message x self w
  = let s := fresh (dom (slots w)) in
    let after :=
      others (x, enqueued (waiting_envelope method chan message w) self,
              (slot_new w).2) in
    match Queue.get timeout (default [] (slots after.2 !! s)) with
    | Returns (err, rest) =>
        let w' := set_slots (<[s := rest]> (slots after.2)) after.2 in
        match err with
        | Some e => if is_Exception e then (Raises e, after.1.1, after.1.2, w')
                    else (Returns tt, after.1.1, after.1.2, w')
        | None => (Returns tt, after.1.1, after.1.2, w')
        end
    | Raises e => (Raises e, after.1.1, after.1.2, after.2)
    | Blocks => (Blocks, after.1.1, after.1.2, after.2)
    end.
Proof.
  intros Hthread. unfold channel_method.
  rewrite bool_decide_eq_false_2 by exact Hthread. cbn [andb].
  unfold slot_new, enqueued, waiting_envelope. cbn [fst snd].
  destruct (others _) as [[x' self'] w']. cbn [fst snd]. reflexivity.
Qed.

(** A waiting call from a thread other than the consumer thread, whose
    reply queue is still empty when the wait of [t >= 0] ends. *)
Lemma channel_method_wait_empty {X : Type}
    (others : X * AMQPConnection * World -> X * AMQPConnection * World)
    caller method chan t message (x : X) self w x' self' w' :
  _consumer_thread self <> Some caller ->
  0 <= t ->
  others (x, enqueued (waiting_envelope method chan message w) self,
          (slot_new w).2) = (x', self', w') ->
  default [] (slots w' !! fresh (dom (slots w))) = [] ->
  channel_method others caller method chan true (Some t) message x self w =
    (Raises QueueEmpty, x', self', w').
Proof.
  intros Hthread Ht Hothers Hslot. unfold channel_method.
  rewrite bool_decide_eq_false_2 by exact Hthread. cbn [andb].
  unfold slot_new in *. cbn [fst snd] in *.
  unfold enqueued, waiting_envelope in Hothers. rewrite Hothers, Hslot.
  unfold Queue.get. destruct (Z.ltb_spec t 0); [lia|reflexivity].
Qed.

(** With a dict that names no bound parameter, [publish] is the call of
    [channel_method] on the channel and the items of the dict. *)
Lemma publish_calls_channel_method {X : Type}
    (others : X * AMQPConnection * World -> X * AMQPConnection * World)
    caller m wait timeout (x : X) self w :
  binds_twice m = false ->
  publish others caller m wait timeout x self w
  = channel_method others caller "publish" (msg_channel m) wait timeout
      (msg_items m) x self w.
Proof. intros H. unfold publish. rewrite H. reflexivity. Qed.

(** C3. A call of [channel_method] with [wait=True] and a timeout [t],
    made from a thread other than the consumer thread (so that the call
    has a reply queue to wait on), puts its envelope on the outbound queue
    and, if neither [None] nor an exception has been put on its reply queue
    when the wait ends, raises [Queue.Empty] in the caller, the timeout
    error of this module.  [ack] does the same, and so does [publish] with
    a dict that names no parameter bound already, so that the call of
    [channel_method] is made: the envelope targets the channel that the
    dict holds under [channel] and carries the other items. *)
Theorem synchronous_call_times_out {X : Type}
    (others : X * AMQPConnection * World -> X * AMQPConnection * World)
    caller method chan t message (x : X) self w x' self' w' :
  _consumer_thread self <> Some caller ->
  0 <= t ->
  others (x, enqueued (waiting_envelope method chan message w) self,
          (slot_new w).2) = (x', self', w') ->
  default [] (slots w' !! fresh (dom (slots w))) = [] ->
  channel_method others caller method chan true (Some t) message x self w =
    (Raises QueueEmpty, x', self', w')
  /\ (forall m : message_dict,
        method = "publish" -> chan = msg_channel m -> message = msg_items m ->
        binds_twice m = false ->
        publish others caller m true (Some t) x self w =
          (Raises QueueEmpty, x', self', w'))
  /\ (forall c tag,
        method = "basic_ack" -> chan = Some c ->
        message = [("delivery_tag", pretty tag)] ->
        ack others caller c tag true (Some t) x self w =
          (Raises QueueEmpty, x', self', w')).
Proof.
  intros Hthread Ht Hothers Hslot.
  pose proof (channel_method_wait_empty others caller method chan t message
                x self w x' self' w' Hthread Ht Hothers Hslot) as H.
  split; [exact H|]. split.
  - intros m -> -> -> Hm. rewrite publish_calls_channel_method by exact Hm.
    exact H.
  - intros c tag -> -> ->. exact H.
Qed.

(** A publish from thread 3 while the consumer thread 7 does nothing for
    five time units. *)
Lemma synchronous_call_times_out_witness :
  let self :=
    set_consumer_thread (Some 7%nat)
      (AMQPConnection_init [] (HostStr "localhost") localhost_params None) in
  (channel_method (fun s => s) 3%nat "publish" None true (Some 5)
     [("body", "{}")] tt self world0).1.1.1 = Raises QueueEmpty
  /\ (publish (fun s => s) 3%nat (mkMessage None [("body", "{}")] eq_refl)
        true (Some 5) tt self world0).1.1.1 = Raises QueueEmpty.
Proof.
  intros self.
  pose proof (synchronous_call_times_out (fun s => s) 3%nat "publish" None 5
                [("body", "{}")] tt self world0 tt
                (enqueued (waiting_envelope "publish" None [("body", "{}")] world0)
                   self)
                (slot_new world0).2) as H.
  destruct H as (Hc & Hp & _).
  - discriminate.
  - lia.
  - reflexivity.
  - vm_compute. reflexivity.
  - split.
    + rewrite Hc. reflexivity.
    + rewrite (Hp (mkMessage None [("body", "{}")] eq_refl)
                 eq_refl eq_refl eq_refl eq_refl).
      reflexivity.
Defined.

(** A dict with a key [timeout] makes the call in [publish] bind [timeout]
    twice: [TypeError], and no envelope is put on the queue.  A dict with
    a key [channel] gives the envelope its target. *)
Example publish_expands_the_dict :
  let self :=
    set_consumer_thread (Some 7%nat)
      (AMQPConnection_init [] (HostStr "localhost") localhost_params None) in
  publish (fun s => s) 3%nat
      (mkMessage None [("body", "{}"); ("timeout", "3")] eq_refl)
      true (Some 5) tt self world0
    = (Raises TypeError, tt, self, world0)
  /\ _connection_tasks_queue
       (publish (fun s => s) 3%nat
          (mkMessage (Some (0%nat, 4%nat)) [("body", "{}")] eq_refl)
          false None tt self world0).1.2
     = [mkEnvelope "publish" [("body", "{}")] None (Some (0%nat, 4%nat))].
Proof. split; reflexivity. Qed.

(** With no timeout the same call stays suspended, and a reply put on the
    queue in time ends it. *)
Example synchronous_call_untimed :
  let self := AMQPConnection_init [] (HostStr "localhost") localhost_params None in
  (channel_method (fun s => s) 3%nat "publish" None true None
     [("body", "{}")] tt self world0).1.1.1 = Blocks.
Proof. vm_compute. reflexivity. Qed.

Example synchronous_call_confirmed :
  let self := AMQPConnection_init [] (HostStr "localhost") localhost_params None in
  let actor '(x, c, w) :=
    let '(_, c, w) := _process_publish (fun _ => None) (0%nat, 1%nat) c w in
    (x, c, w) in
  (channel_method actor 3%nat "publish" None true (Some 5)
     [("body", "{}")] tt self world0).1.1.1 = Returns tt.
Proof. vm_compute. reflexivity. Qed.

(** ** Draining the outbound queue *)

(** Putting a reply on a reply queue leaves the broker's view alone. *)
Lemma reply_frame (o : option slot_ref) (v : option exn) (w : World) :
  let w' := match o with Some s => slot_put s v w | None => w end in
  sent w' = sent w /\ ncalls w' = ncalls w.
Proof. destruct o; split; reflexivity. Qed.

(** A drain during which every call succeeds empties the queue and
    delivers the envelopes in queue order. *)
Lemma drain_all q : forall broker chan closed w,
  (forall i, (i < length q)%nat -> broker (ncalls w + i)%nat = None) ->
  exists w',
    _process_publish_loop broker chan closed q w = (Returns tt, [], w')
    /\ sent w' = sent w ++ map (delivery chan) q
    /\ ncalls w' = (ncalls w + length q)%nat.
Proof.
  induction q as [|e q IH]; intros broker chan closed w Hok.
  - exists w. cbn. rewrite app_nil_r, Nat.add_0_r. auto.
  - cbn [_process_publish_loop]. unfold invoke.
    pose proof (Hok 0%nat) as H0. rewrite Nat.add_0_r in H0.
    rewrite H0 by (cbn; lia).
    set (w1 := add_sent _ (add_call w)).
    destruct (reply_frame (env_err_queue e) None w1) as [Hs Hn].
    set (w2 := match env_err_queue e with Some s => slot_put s None w1 | None => w1 end)
      in *.
    destruct (IH broker chan closed w2) as (w' & -> & Hs' & Hn').
    { intros i Hi. rewrite Hn. cbn. rewrite <- (Hok (S i)) by (cbn; lia).
      f_equal. lia. }
    exists w'. split; [reflexivity|]. split.
    + rewrite Hs', Hs. cbn. rewrite <- app_assoc. reflexivity.
    + rewrite Hn', Hn. cbn. lia.
Qed.

(** A drain that delivers [pre] and then meets [ConnectionClosed] on [e],
    with the connection not closed. *)
Lemma drain_connection_closed pre : forall e post broker chan w,
  (forall i, (i < length pre)%nat -> broker (ncalls w + i)%nat = None) ->
  broker (ncalls w + length pre)%nat = Some ConnectionClosed ->
  exists w',
    _process_publish_loop broker chan false (pre ++ e :: post) w
      = (Raises ConnectionClosed, post ++ [e], w')
    /\ sent w' = sent w ++ map (delivery chan) pre
    /\ slots w' =
         slots (_process_publish_loop broker chan false pre w).2
    /\ ncalls w' = S (ncalls w + length pre)%nat.
Proof.
  induction pre as [|p pre IH]; intros e post broker chan w Hok Hfail.
  - cbn [app length _process_publish_loop] in *. unfold invoke.
    rewrite Nat.add_0_r in Hfail. rewrite Hfail.
    exists (add_call w). cbn. rewrite app_nil_r, Nat.add_0_r. auto.
  - cbn [app _process_publish_loop]. unfold invoke.
    pose proof (Hok 0%nat) as H0. rewrite Nat.add_0_r in H0.
    rewrite H0 by (cbn; lia).
    set (w1 := add_sent _ (add_call w)).
    destruct (reply_frame (env_err_queue p) None w1) as [Hs Hn].
    set (w2 := match env_err_queue p with Some s => slot_put s None w1 | None => w1 end)
      in *.
    destruct (IH e post broker chan w2) as (w' & -> & Hs' & Hsl & Hn').
    { intros i Hi. rewrite Hn. cbn. rewrite <- (Hok (S i)) by (cbn; lia).
      f_equal. lia. }
    { rewrite Hn. cbn. rewrite <- Hfail. f_equal. cbn. lia. }
    exists w'. split; [reflexivity|]. split; [|split].
    + rewrite Hs', Hs. cbn. rewrite <- app_assoc. reflexivity.
    + exact Hsl.
    + rewrite Hn', Hn. cbn. lia.
Qed.

(** [connect] touches neither the outbound queue nor the channels. *)
Lemma connect_loop_frame rand atts : forall deadline self w r self' w' rest,
  connect_loop rand atts deadline self w = (r, self', w', rest) ->
  _connection_tasks_queue self' = _connection_tasks_queue self
  /\ sent w' = sent w /\ ncalls w' = ncalls w /\ slots w' = slots w.
Proof.
  induction atts as [|att atts IH]; intros deadline self w r self' w' rest H;
    cbn [connect_loop] in H.
  { injection H as <- <- <- <-. auto. }
  destruct (gen_next _ _ _ _ _) as [g|]; [|injection H as <- <- <- <-; auto].
  unfold _get_pika_connection in H.
  destruct (att_raises att) as [e|].
  - destruct (is_AMQPConnectionError e).
    + cbn [_get_reconnect_backoff] in H.
      destruct (deadline_passed _ _).
      * injection H as <- <- <- <-. auto.
      * apply IH in H. exact H.
    + injection H as <- <- <- <-. auto.
  - injection H as <- <- <- <-. auto.
Qed.

Lemma connect_frame rand atts self w r self' w' rest :
  connect rand atts self w = (r, self', w', rest) ->
  _connection_tasks_queue self' = _connection_tasks_queue self
  /\ sent w' = sent w /\ ncalls w' = ncalls w /\ slots w' = slots w.
Proof.
  unfold connect. intros H.
  destruct (connect_loop _ _ _ _ _) as [[[o s] w0] r0] eqn:E.
  apply connect_loop_frame in E. cbn in E.
  destruct o as [[c|e|]|]; injection H as <- <- <- <-; exact E.
Qed.

(** C1, as stated, fails: the envelope that met [ConnectionClosed] is put
    at the tail of the queue, behind the envelope submitted after it, and
    after the reconnect the broker receives [E2] before [E1]. *)
Lemma requeue_is_not_head_of_line :
  let self :=
    enqueued E2 (enqueued E1
      (AMQPConnection_init [] (HostStr "localhost") localhost_params (Some 10))) in
  let after := _process_publish drops_first (0%nat, 1%nat) self world0 in
  _closed self = false
  /\ _connection_tasks_queue self = [E1; E2]
  /\ after.1.1 = Raises ConnectionClosed
  /\ _connection_tasks_queue after.1.2 = [E2; E1]
  /\ _connection_tasks_queue after.1.2 <> [E1; E2]
  /\ (exists self' w',
        lossy_run = Some (Returns tt, self', w')
        /\ sent w' = [delivery (1%nat, 1%nat) E2; delivery (1%nat, 1%nat) E1]
        /\ sent w' <> [delivery (1%nat, 1%nat) E1; delivery (1%nat, 1%nat) E2]).
Proof.
  cbv zeta. repeat split; try reflexivity; try discriminate.
  vm_compute. eexists _, _. repeat split; discriminate.
Qed.

(** C1, amended. If the channel method of an envelope [e] raises
    [ConnectionClosed] during a drain and the connection is not closed, the
    drain stops with that exception and [e] is put back at the tail of the
    queue, behind the envelopes [post] that were queued after it; the
    envelopes [pre] before it have been delivered in order.  When
    [connect] has then returned a new out-channel, a drain that meets no
    error delivers [post] in submission order and [e] after them, each
    once, and leaves the queue empty. *)
Theorem connection_closed_requeues_at_tail broker chan self w pre e post :
  _connection_tasks_queue self = pre ++ e :: post ->
  _closed self = false ->
  (forall i, (i < length pre)%nat -> broker (ncalls w + i)%nat = None) ->
  broker (ncalls w + length pre)%nat = Some ConnectionClosed ->
  (forall i, (length pre < i <= length pre + length post + 1)%nat ->
             broker (ncalls w + i)%nat = None) ->
  let '(r, self1, w1) := _process_publish broker chan self w in
  r = Raises ConnectionClosed
  /\ _connection_tasks_queue self1 = post ++ [e]
  /\ sent w1 = sent w ++ map (delivery chan) pre
  /\ (forall rand atts chan2 self2 w2 rest,
        connect rand atts (set_connect_wait false self1) w1
          = (Some (Returns chan2), self2, w2, rest) ->
        let '(r3, self3, w3) := _process_publish broker chan2 self2 w2 in
        r3 = Returns tt
        /\ _connection_tasks_queue self3 = []
        /\ sent w3 = sent w ++ map (delivery chan) pre
                       ++ map (delivery chan2) (post ++ [e])).
Proof.
  intros Hq Hopen Hpre Hfail Hpost. unfold _process_publish.
  rewrite Hq, Hopen.
  destruct (drain_connection_closed pre e post broker chan w Hpre Hfail)
    as (w1 & -> & Hs1 & _ & Hn1).
  cbn. repeat split; try assumption.
  intros rand atts chan2 self2 w2 rest Hc.
  apply connect_frame in Hc as (Hq2 & Hs2 & Hn2 & _). cbn in Hq2.
  rewrite Hq2.
  destruct (drain_all (post ++ [e]) broker chan2 (_closed self2) w2)
    as (w3 & -> & Hs3 & _).
  { intros i Hi. rewrite length_app in Hi. cbn in Hi. rewrite Hn2, Hn1.
    rewrite <- (Hpost (S (length pre + i))) by lia. f_equal. lia. }
  cbn. repeat split. rewrite Hs3, Hs2, Hs1, <- app_assoc. reflexivity.
Qed.

(** [E0], [E1], [E2] queued; the connection drops on [E1]. *)
Lemma connection_closed_requeues_at_tail_witness :
  let self :=
    enqueued E2 (enqueued E1 (enqueued E0
      (AMQPConnection_init [] (HostStr "localhost") localhost_params (Some 10)))) in
  let after := _process_publish drops_second (0%nat, 1%nat) self world0 in
  after.1.1 = Raises ConnectionClosed
  /\ _connection_tasks_queue after.1.2 = [E2; E1]
  /\ sent after.2 = [delivery (0%nat, 1%nat) E0].
Proof.
  intros self after.
  pose proof (connection_closed_requeues_at_tail drops_second (0%nat, 1%nat)
                self world0 [E0] E1 [E2] eq_refl eq_refl) as H.
  fold after in H. destruct after as [[r self1] w1].
  destruct H as (Hr & Hq & Hs & _).
  - intros [|i] Hi; [reflexivity|cbn in Hi; lia].
  - reflexivity.
  - intros [|[|i]] Hi; cbn in Hi; try lia; reflexivity.
  - auto.
Defined.

(** ** The task consumer *)

(** C6. On a delivery whose body [json.loads] rejects, [process] logs
    "Error parsing task: <body>" at ERROR and returns: the consumer is as
    before (same semaphore value, hence same number of slots in use, same
    task buffer), no worker thread is started, and nothing reaches the
    broker, so the delivery is not acked. *)
Theorem invalid_json_is_dropped
    (json_loads : string -> option json) chan method properties body self w :
  json_loads body = None ->
  TaskConsumer_process json_loads chan method properties body self w
    = (self, add_log "ERROR" ("Error parsing task: " +:+ body) w)
  /\ (let '(self', w') :=
        TaskConsumer_process json_loads chan method properties body self w in
      _sem self' = _sem self
      /\ in_use self' = in_use self
      /\ _tasks_buffer self' = _tasks_buffer self
      /\ workers w' = workers w
      /\ sent w' = sent w
      /\ ncalls w' = ncalls w
      /\ log w' = log w ++ [("ERROR", "Error parsing task: " +:+ body)]).
Proof.
  intros H. unfold TaskConsumer_process. rewrite H. repeat split.
Qed.

(** The body of scenario S6, on a pool of two with one slot in use. *)
Lemma invalid_json_is_dropped_witness :
  let self := set_sem 1 (TaskConsumer_init "tasks" 2) in
  TaskConsumer_process loads_literal (0%nat, 2%nat) (mkDeliver 1) no_properties
      "not json{" self world0
    = (self, add_log "ERROR" "Error parsing task: not json{" world0).
Proof.
  intros self.
  exact (proj1 (invalid_json_is_dropped loads_literal (0%nat, 2%nat) (mkDeliver 1)
                  no_properties "not json{" self world0 eq_refl)).
Defined.

(** A body that decodes takes a pool slot and starts a worker, or is
    buffered when no slot is free. *)
Example valid_json_is_admitted :
  let self := set_sem 1 (TaskConsumer_init "tasks" 2) in
  let '(self1, w1) :=
    TaskConsumer_process loads_literal (0%nat, 2%nat) (mkDeliver 1) no_properties
      "{}" self world0 in
  let '(self2, w2) :=
    TaskConsumer_process loads_literal (0%nat, 2%nat) (mkDeliver 2) no_properties
      "{}" self1 w1 in
  in_use self = 1%nat /\ in_use self1 = 2%nat /\ in_use self2 = 2%nat
  /\ workers w1 = [((0%nat, 2%nat), no_properties, JObj [], 1%nat)]
  /\ workers w2 = workers w1
  /\ _tasks_buffer self2 = [((0%nat, 2%nat), no_properties, JObj [], 2%nat)].
Proof. vm_compute. repeat split. Qed.

(** ** The request/response handlers *)


(** A blocking publish from its wait for the response on, once the base
    publish has returned: the [try] block and its [finally] clause. *)
Lemma Blocking_publish_wait json_dumps sending waiting caller uuid message
    correlation_id routing_key expiration timeout self conn w
    self1 conn1 w1 self2 conn2 w2 :
  let cid := default uuid correlation_id in
  let deleted :=
    set_response_queues (delete cid (_response_queues self2)) self2 in
  Base_publish json_dumps sending caller (b_exchange self) (b_queue self)
      message cid routing_key expiration (awaiting cid self) conn w
    = (Returns tt, self1, conn1, w1) ->
  waiting (self1, conn1, w1) = (self2, conn2, w2) ->
  Blocking_publish json_dumps sending waiting caller uuid message
      correlation_id routing_key expiration timeout self conn w
    = match _response_queues self2 !! cid with
      | None => (Raises (KeyError cid), self2, conn2, w2)
      | Some q =>
          match Queue.get timeout q with
          | Returns (resp, _) => (Returns resp, deleted, conn2, w2)
          | Raises QueueEmpty =>
              (Raises (RuntimeError ("No response received for task " +:+ cid)),
               deleted, conn2, w2)
          | Raises e => (Raises e, deleted, conn2, w2)
          | Blocks => (Blocks, self2, conn2, w2)
          end
      end.
Proof.
  intros cid deleted Hsend Hwait. subst deleted. unfold Blocking_publish.
  fold cid. unfold awaiting in Hsend.
  cbn [b_exchange b_queue set_response_queues].
  rewrite Hsend, Hwait.
  destruct (_response_queues self2 !! cid) as [q|] eqn:Hq.
  - destruct (Queue.get timeout q) as [[resp rest]|e|].
    + cbn [_response_queues set_response_queues].
      rewrite lookup_insert_eq, delete_insert_eq. reflexivity.
    + destruct e; rewrite Hq; reflexivity.
    + reflexivity.
  - rewrite Hq. reflexivity.
Qed.

(** How a blocking publish ends once its message is confirmed and its wait
    of [t >= 0] is over, by what its reply queue [q] then holds. *)
Lemma Blocking_publish_exit json_dumps sending waiting caller uuid message
    correlation_id routing_key expiration t self conn w
    self1 conn1 w1 self2 conn2 w2 q :
  Base_publish json_dumps sending caller (b_exchange self) (b_queue self)
      message (default uuid correlation_id) routing_key expiration
      (awaiting (default uuid correlation_id) self) conn w
    = (Returns tt, self1, conn1, w1) ->
  waiting (self1, conn1, w1) = (self2, conn2, w2) ->
  0 <= t ->
  _response_queues self2 !! default uuid correlation_id = Some q ->
  Blocking_publish json_dumps sending waiting caller uuid message
      correlation_id routing_key expiration (Some t) self conn w
    = (match q with
       | [] => Raises (RuntimeError ("No response received for task "
                                       +:+ default uuid correlation_id))
       | resp :: _ => Returns resp
       end,
       set_response_queues
         (delete (default uuid correlation_id) (_response_queues self2)) self2,
       conn2, w2).
Proof.
  intros Hsend Hwait Ht Hq.
  rewrite (Blocking_publish_wait _ _ _ _ _ _ _ _ _ _ _ _ _ _ _ _ _ _ _
             Hsend Hwait).
  rewrite Hq. unfold Queue.get.
  destruct (Z.ltb_spec t 0); [lia|].
  destruct q as [|resp rest]; reflexivity.
Qed.






(** The reply arrives while the caller waits. *)
Example blocking_publish_reply :
  let result :=
    Blocking_publish dumps_literal (actor_drains healthy (0%nat, 1%nat))
      (reply_arrives loads_literal healthy (0%nat, 2%nat) (mkDeliver 1)
         (mkProperties None (Some "c1") None) "true")
      3%nat "c1" (JObj []) None routing_key None (Some 1) rpc_handler
      (AMQPConnection_init [] (HostStr "localhost") localhost_params None)
      world0 in
  result.1.1.1 = Returns (JBool true)
  /\ _response_queues result.1.1.2 = ∅.
Proof. vm_compute. split; reflexivity. Qed.




(** ** Host rotation *)

Lemma swap_Permutation {A} (x : list A) i j : swap x i j ≡ₚ x.
Proof.
  unfold swap.
  destruct (x !! i) as [xi|] eqn:Hi; [|reflexivity].
  destruct (x !! j) as [xj|] eqn:Hj; [|reflexivity].
  apply Permutation_insert_swap; assumption.
Qed.

Lemma shuffle_from_Permutation {A} i : forall rand k (x : list A),
  shuffle_from i rand k x ≡ₚ x.
Proof.
  induction i as [|i IH]; intros rand k x; cbn [shuffle_from]; [reflexivity|].
  rewrite IH. apply swap_Permutation.
Qed.

Lemma random_shuffle_Permutation {A} rand (x : list A) :
  random_shuffle rand x ≡ₚ x.
Proof. apply shuffle_from_Permutation. Qed.

(** With no host to visit, the loops of the generator go round without
    ever reaching the [yield]: no amount of fuel gives a result. *)
Lemma gen_resume_no_hosts fuel params : gen_resume fuel [] [] params = None.
Proof. induction fuel as [|fuel IH]; [reflexivity|exact IH]. Qed.

(** The hosts handed out do not depend on the other fields of the object. *)
Lemma hosts_yielded_params n : forall rand raw pp hosts rest p p',
  hosts_yielded n rand raw pp (GenYielded hosts rest p)
  = hosts_yielded n rand raw pp (GenYielded hosts rest p').
Proof.
  induction n as [|n IH]; intros rand raw pp hosts rest p p'; [reflexivity|].
  cbn [hosts_yielded gen_next].
  destruct rest as [|h rest]; [destruct hosts as [|h hosts']|]; cbn;
    try reflexivity; f_equal; apply IH.
Qed.

(** The rest of the current pass over the hosts comes out first. *)
Lemma hosts_yielded_rest rest : forall n rand raw pp hosts p,
  hosts_yielded (length rest + n) rand raw pp (GenYielded hosts rest p)
  = (rest ++.) <$> hosts_yielded n rand raw pp (GenYielded hosts [] p).
Proof.
  induction rest as [|h rest IH]; intros n rand raw pp hosts p.
  - cbn [length Nat.add app].
    destruct (hosts_yielded n rand raw pp (GenYielded hosts [] p)); reflexivity.
  - cbn [length Nat.add hosts_yielded gen_next gen_resume yielded].
    rewrite IH, (hosts_yielded_params n rand raw pp hosts [] (set_host h p) p).
    destruct (hosts_yielded n rand raw pp (GenYielded hosts [] p)); reflexivity.
Qed.

(** Whole passes: [c] passes hand out the host list [c] times over. *)
Lemma hosts_yielded_cycles c : forall rand raw pp h hosts p,
  hosts_yielded (c * length (h :: hosts)) rand raw pp
    (GenYielded (h :: hosts) [] p)
  = Some (concat (replicate c (h :: hosts))).
Proof.
  induction c as [|c IH]; intros rand raw pp h hosts p; [reflexivity|].
  cbn [Nat.mul length Nat.add hosts_yielded gen_next gen_resume yielded].
  change (S (length hosts)) with (length (h :: hosts)).
  rewrite hosts_yielded_rest.
  rewrite (hosts_yielded_params _ rand raw pp (h :: hosts) [] (set_host h p) p).
  rewrite IH. reflexivity.
Qed.

(** Every [next] returns when there is a host. *)
Lemma hosts_yielded_total n : forall rand raw pp h hosts rest p,
  is_Some (hosts_yielded n rand raw pp (GenYielded (h :: hosts) rest p)).
Proof.
  induction n as [|n IH]; intros rand raw pp h hosts rest p; [by eexists|].
  cbn [hosts_yielded gen_next].
  destruct rest as [|h' rest]; cbn;
    match goal with
    | |- is_Some (_ <$> hosts_yielded n ?r ?w ?q (GenYielded ?a ?b ?c)) =>
        destruct (IH r w q h hosts b c) as [l ->]
    end; by eexists.
Qed.

(** C7. The host list of the iterator is fixed when its body starts: a
    string host gives the one-element list, a sequence of hosts gives a
    permutation of itself, drawn by [random.shuffle].  With at least one
    host, every [next] returns, and from then on each pass hands out the
    hosts of that list, every one once and in the order of the list,
    before the next pass starts again at its head. *)
Theorem host_rotation rand raw pika_params :
  let hosts := gen_hosts rand raw in
  (forall h, raw = HostStr h -> hosts = [h])
  /\ (forall hs, raw = HostSeq hs -> hosts ≡ₚ hs)
  /\ (hosts <> [] ->
      (forall n, is_Some (hosts_yielded n rand raw pika_params GenCreated))
      /\ (forall c,
            hosts_yielded (c * length hosts) rand raw pika_params GenCreated
            = Some (concat (replicate c hosts)))).
Proof.
  intros hosts. split; [|split].
  - intros h ->. reflexivity.
  - intros hs ->. apply random_shuffle_Permutation.
  - intros Hne. subst hosts.
    destruct (gen_hosts rand raw) as [|h t] eqn:Hh; [congruence|]. split.
    + intros [|n]; [by eexists|].
      cbn [hosts_yielded gen_next]. rewrite Hh. cbn.
      destruct (hosts_yielded_total n rand raw pika_params h t t
                  (set_host h pika_params)) as [l ->].
      by eexists.
    + intros [|c]; [reflexivity|].
      cbn [Nat.mul length Nat.add hosts_yielded gen_next]. rewrite Hh.
      cbn [gen_resume yielded host set_host].
      change (S (length t)) with (length (h :: t)).
      rewrite hosts_yielded_rest.
      rewrite (hosts_yielded_params _ rand raw pika_params (h :: t) []
                 (set_host h pika_params) pika_params).
      rewrite hosts_yielded_cycles. reflexivity.
Qed.

(** Scenario S2: three hosts, and a generator of random numbers that
    always draws 0. *)
Lemma host_rotation_witness :
  gen_hosts (fun _ => 0%nat) (HostSeq ["h1"; "h2"; "h3"]) = ["h2"; "h3"; "h1"]
  /\ hosts_yielded 6 (fun _ => 0%nat) (HostSeq ["h1"; "h2"; "h3"])
       localhost_params GenCreated
     = Some ["h2"; "h3"; "h1"; "h2"; "h3"; "h1"].
Proof.
  split; [reflexivity|].
  refine (proj2 (proj2 (proj2 (host_rotation (fun _ => 0%nat)
            (HostSeq ["h1"; "h2"; "h3"]) localhost_params)) _) 2%nat).
  discriminate.
Defined.

(** A single host name is dialled again and again. *)
Example host_rotation_single :
  hosts_yielded 3 (fun _ => 0%nat) (HostStr "broker") localhost_params GenCreated
  = Some ["broker"; "broker"; "broker"].
Proof. reflexivity. Qed.

(** Reply queues get distinct names. *)
Example slot_new_computes :
  fst (slot_new (snd (slot_new world0))) = 1%nat.
Proof. vm_compute. reflexivity. Qed.

(** * Further properties *)

(** ** Draining, whatever the broker does *)

Lemma slot_put_lookup s v w s' :
  default [] (slots (slot_put s v w) !! s')
  = default [] (slots w !! s') ++ (if decide (s = s') then [v] else []).
Proof.
  unfold slot_put. cbn. destruct (decide (s = s')) as [->|Hne].
  - rewrite lookup_insert_eq. reflexivity.
  - rewrite lookup_insert_ne by exact Hne. rewrite app_nil_r. reflexivity.
Qed.

Lemma waiters_cons s e q :
  waiters s (e :: q)
  = ((if decide (env_err_queue e = Some s) then 1 else 0) + waiters s q)%nat.
Proof.
  unfold waiters. rewrite filter_cons.
  destruct (decide (env_err_queue e = Some s)); reflexivity.
Qed.

Lemma drain_all_replies q : forall broker chan closed w s,
  (forall i, (i < length q)%nat -> broker (ncalls w + i)%nat = None) ->
  default [] (slots (_process_publish_loop broker chan closed q w).2 !! s)
  = default [] (slots w !! s) ++ replicate (waiters s q) None.
Proof.
  induction q as [|e q IH]; intros broker chan closed w s Hok.
  - cbn. rewrite app_nil_r. reflexivity.
  - cbn [_process_publish_loop]. unfold invoke.
    pose proof (Hok 0%nat) as H0. rewrite Nat.add_0_r in H0.
    rewrite H0 by (cbn; lia).
    set (w1 := add_sent _ (add_call w)).
    set (w2 := match env_err_queue e with Some s0 => slot_put s0 None w1 | None => w1 end).
    rewrite IH.
    2:{ intros i Hi. replace (ncalls w2) with (S (ncalls w)).
        - rewrite <- (Hok (S i)) by (cbn; lia). f_equal. lia.
        - subst w2 w1. destruct (env_err_queue e); reflexivity. }
    rewrite waiters_cons. subst w2.
    destruct (env_err_queue e) as [s0|].
    + rewrite slot_put_lookup. subst w1. cbn [slots add_sent add_call].
      rewrite <- app_assoc. f_equal.
      destruct (decide (s0 = s)) as [->|Hne].
      * rewrite decide_True by reflexivity. reflexivity.
      * rewrite decide_False by congruence. reflexivity.
    + rewrite decide_False by discriminate. reflexivity.
Qed.

(** X1. A drain during which no channel method raises empties the
    outbound queue, hands the envelopes to the broker in queue order, each
    on its own channel or else on the out-channel, and puts one success
    marker ([None]) on the reply queue of every envelope that has one. *)
Theorem drain_delivers_in_order broker chan self w :
  (forall i, (i < length (_connection_tasks_queue self))%nat ->
             broker (ncalls w + i)%nat = None) ->
  (_process_publish broker chan self w).1.1 = Returns tt
  /\ _connection_tasks_queue (_process_publish broker chan self w).1.2 = []
  /\ sent (_process_publish broker chan self w).2
     = sent w ++ map (delivery chan) (_connection_tasks_queue self)
  /\ (forall s,
        default [] (slots (_process_publish broker chan self w).2 !! s)
        = default [] (slots w !! s)
          ++ replicate (waiters s (_connection_tasks_queue self)) None).
Proof.
  intros Hok. unfold _process_publish.
  pose proof (drain_all_replies (_connection_tasks_queue self) broker chan
                (_closed self) w) as Hrep.
  destruct (drain_all (_connection_tasks_queue self) broker chan (_closed self)
              w Hok) as (w' & Heq & Hs & _).
  rewrite Heq in *. cbn. repeat split; try assumption.
  intros s. apply Hrep. exact Hok.
Qed.

Lemma drain_delivers_in_order_witness :
  let self :=
    enqueued (mkEnvelope "basic_ack" [("delivery_tag", "1")] (Some 4%nat)
                (Some (0%nat, 2%nat)))
      (enqueued E1
         (AMQPConnection_init [] (HostStr "localhost") localhost_params None)) in
  sent (_process_publish healthy (0%nat, 1%nat) self world0).2
  = [((0%nat, 1%nat), "publish", [("body", "1")]);
     ((0%nat, 2%nat), "basic_ack", [("delivery_tag", "1")])].
Proof.
  intros self.
  refine (proj1 (proj2 (proj2
    (drain_delivers_in_order healthy (0%nat, 1%nat) self world0 _)))).
  intros i Hi. reflexivity.
Defined.

Lemma drain_prefix q : forall broker chan closed w,
  exists k,
    (k <= length q)%nat
    /\ sent (_process_publish_loop broker chan closed q w).2
       = sent w ++ map (delivery chan) (take k q)
    /\ (forall i, (i < k)%nat -> broker (ncalls w + i)%nat = None)
    /\ match (_process_publish_loop broker chan closed q w).1.1 with
       | Returns _ =>
           (k = length q /\ (_process_publish_loop broker chan closed q w).1.2 = [])
           \/ (closed = true
               /\ broker (ncalls w + k)%nat = Some ConnectionClosed
               /\ (k < length q)%nat
               /\ (_process_publish_loop broker chan closed q w).1.2
                  = drop (S k) q)
       | Raises e =>
           broker (ncalls w + k)%nat = Some e
           /\ (k < length q)%nat
           /\ (_process_publish_loop broker chan closed q w).1.2
              = drop (S k) q
                ++ (if decide (e = ConnectionClosed) then take 1 (drop k q) else [])
           /\ (e = ConnectionClosed -> closed = false)
       | Blocks => False
       end.
Proof.
  induction q as [|x q IH]; intros broker chan closed w.
  { exists 0%nat. cbn. rewrite app_nil_r. repeat split; auto; intros; lia. }
  cbn [_process_publish_loop]. unfold invoke.
  destruct (broker (ncalls w)) as [e|] eqn:Hb.
  - exists 0%nat.
    assert (Hb0 : broker (ncalls w + 0)%nat = Some e)
      by (rewrite Nat.add_0_r; exact Hb).
    split; [cbn; lia|]. split; [|split; [intros; lia|]].
    { destruct e, closed, (env_err_queue x); cbn; rewrite app_nil_r; reflexivity. }
    destruct (decide (e = ConnectionClosed)) as [->|Hne].
    + destruct closed; cbn.
      * right. repeat split; auto. lia.
      * repeat split; auto. lia.
    + destruct e, (env_err_queue x); try congruence; cbn; rewrite app_nil_r;
        repeat split; auto; try lia; discriminate.
  - set (w1 := add_sent _ (add_call w)).
    set (w2 := match env_err_queue x with Some s => slot_put s None w1 | None => w1 end).
    assert (Hn : ncalls w2 = S (ncalls w))
      by (subst w2 w1; destruct (env_err_queue x); reflexivity).
    assert (Hs : sent w2 = sent w ++ [delivery chan x])
      by (subst w2 w1; destruct (env_err_queue x); reflexivity).
    destruct (IH broker chan closed w2) as (k & Hk & Hsent & Hok & Hr).
    exists (S k). cbn [length take drop map].
    split; [lia|]. split; [|split].
    + rewrite Hsent, Hs, <- app_assoc. reflexivity.
    + intros [|i] Hi; [rewrite Nat.add_0_r; exact Hb|].
      rewrite <- (Hok i) by lia. rewrite Hn. f_equal. lia.
    + rewrite Hn in Hr.
      replace (ncalls w + S k)%nat with (S (ncalls w) + k)%nat by lia.
      destruct (_process_publish_loop broker chan closed q w2) as [[r q'] w'].
      cbn [fst snd] in *.
      destruct r as [[]|e|]; [| |exact Hr].
      * destruct Hr as [[-> ->]|(Hc & Hb' & Hlt & Hq)]; [left; auto|].
        right. repeat split; auto. lia.
      * destruct Hr as (Hb' & Hlt & Hq & Hc). repeat split; auto. lia.
Qed.

(** X2. Whatever the channel methods do, a drain hands a prefix of the
    queue to the broker, in queue order, and stops at the first envelope
    whose call raises.  It returns when the queue is empty, or when that
    call raised [ConnectionClosed] on a closed connection, in which case the
    envelope is dropped.  Otherwise it raises what the call raised; the
    envelope is put back, behind the others, only for [ConnectionClosed] on
    a connection that is not closed.  The envelopes behind the failing one
    stay queued in their order, and a drain never blocks. *)
Theorem drain_stops_at_first_error broker chan self w :
  exists k,
    (k <= length (_connection_tasks_queue self))%nat
    /\ sent (_process_publish broker chan self w).2
       = sent w ++ map (delivery chan) (take k (_connection_tasks_queue self))
    /\ (forall i, (i < k)%nat -> broker (ncalls w + i)%nat = None)
    /\ match (_process_publish broker chan self w).1.1 with
       | Returns _ =>
           (k = length (_connection_tasks_queue self)
            /\ _connection_tasks_queue (_process_publish broker chan self w).1.2 = [])
           \/ (_closed self = true
               /\ broker (ncalls w + k)%nat = Some ConnectionClosed
               /\ (k < length (_connection_tasks_queue self))%nat
               /\ _connection_tasks_queue (_process_publish broker chan self w).1.2
                  = drop (S k) (_connection_tasks_queue self))
       | Raises e =>
           broker (ncalls w + k)%nat = Some e
           /\ (k < length (_connection_tasks_queue self))%nat
           /\ _connection_tasks_queue (_process_publish broker chan self w).1.2
              = drop (S k) (_connection_tasks_queue self)
                ++ (if decide (e = ConnectionClosed)
                    then take 1 (drop k (_connection_tasks_queue self)) else [])
           /\ (e = ConnectionClosed -> _closed self = false)
       | Blocks => False
       end.
Proof.
  destruct (drain_prefix (_connection_tasks_queue self) broker chan
              (_closed self) w) as (k & Hk & Hs & Hok & Hr).
  exists k. unfold _process_publish.
  destruct (_process_publish_loop broker chan (_closed self)
              (_connection_tasks_queue self) w) as [[r q'] w'].
  cbn in *. auto.
Qed.

(** A drain leaves the clock, the dialled hosts and the logger alone. *)
Lemma drain_frame q : forall broker chan closed w,
  dialled (_process_publish_loop broker chan closed q w).2 = dialled w
  /\ log (_process_publish_loop broker chan closed q w).2 = log w
  /\ slept (_process_publish_loop broker chan closed q w).2 = slept w.
Proof.
  induction q as [|x q IH]; intros broker chan closed w; [cbn; auto|].
  cbn [_process_publish_loop]. unfold invoke.
  destruct (broker (ncalls w)) as [e|].
  - destruct e, closed, (env_err_queue x); cbn; auto.
  - match goal with
    | |- context [_process_publish_loop broker chan closed q ?v] =>
        destruct (IH broker chan closed v) as (H1 & H2 & H3)
    end.
    rewrite H1, H2, H3. destruct (env_err_queue x); cbn; auto.
Qed.

Lemma drain_workers q : forall broker chan closed w,
  workers (_process_publish_loop broker chan closed q w).2 = workers w.
Proof.
  induction q as [|x q IH]; intros broker chan closed w; [reflexivity|].
  cbn [_process_publish_loop]. unfold invoke.
  destruct (broker (ncalls w)) as [e|].
  - destruct e, closed, (env_err_queue x); reflexivity.
  - rewrite IH. destruct (env_err_queue x); reflexivity.
Qed.

(** ** A waiting call and the consumer thread *)

Lemma actor_drains_eq {X : Type} broker chan (x : X) self w :
  actor_drains broker chan (x, self, w)
  = (x, (_process_publish broker chan self w).1.2,
        (_process_publish broker chan self w).2).
Proof.
  unfold actor_drains.
  destruct (_process_publish broker chan self w) as [[r c] w']. reflexivity.
Qed.

Lemma waiters_app s q1 q2 : waiters s (q1 ++ q2) = (waiters s q1 + waiters s q2)%nat.
Proof. unfold waiters. rewrite filter_app, length_app. reflexivity. Qed.

Lemma slot_new_fresh w : slots w !! fresh (dom (slots w)) = None.
Proof. apply not_elem_of_dom. apply is_fresh. Qed.

(** A waiting call whose envelope, and those queued before it, the
    consumer thread sends without error. *)
Lemma channel_method_confirmed {X : Type} broker chan caller method target
    timeout message (x : X) self w :
  _consumer_thread self <> Some caller ->
  (forall t, timeout = Some t -> 0 <= t) ->
  (forall i, (i <= length (_connection_tasks_queue self))%nat ->
             broker (ncalls w + i)%nat = None) ->
  exists w',
    channel_method (actor_drains broker chan) caller method target true timeout
      message x self w
    = (Returns tt, x, set_tasks_queue [] self, w')
    /\ sent w'
       = sent w ++ map (delivery chan)
                     (_connection_tasks_queue self
                      ++ [waiting_envelope method target message w])
    /\ ncalls w' = S (ncalls w + length (_connection_tasks_queue self))
    /\ log w' = log w
    /\ workers w' = workers w.
Proof.
  intros Hthread Ht Hok.
  rewrite (channel_method_waits _ _ _ _ _ _ _ _ _ Hthread).
  rewrite actor_drains_eq. cbv zeta. cbn [fst snd].
  set (env := waiting_envelope method target message w).
  set (s := fresh (dom (slots w))).
  assert (Hok' : forall i,
    (i < length (_connection_tasks_queue (enqueued env self)))%nat ->
    broker (ncalls (slot_new w).2 + i)%nat = None).
  { intros i Hi. cbn in Hi. unfold Queue.put in Hi.
    rewrite length_app in Hi. cbn in Hi. apply Hok. lia. }
  unfold _process_publish.
  pose proof (drain_all_replies (_connection_tasks_queue (enqueued env self))
                broker chan (_closed (enqueued env self)) (slot_new w).2 s Hok')
    as Hrep.
  pose proof (drain_frame (_connection_tasks_queue (enqueued env self))
                broker chan (_closed (enqueued env self)) (slot_new w).2)
    as (_ & Hlog & _).
  pose proof (drain_workers (_connection_tasks_queue (enqueued env self))
                broker chan (_closed (enqueued env self)) (slot_new w).2)
    as Hwk.
  destruct (drain_all (_connection_tasks_queue (enqueued env self)) broker chan
              (_closed (enqueued env self)) (slot_new w).2 Hok')
    as (w' & Heq & Hs & Hn).
  rewrite Heq in *. cbn [fst snd] in *. rewrite Hrep.
  cbn [slot_new snd slots set_slots]. fold s. rewrite lookup_insert_eq.
  cbn [default app enqueued _connection_tasks_queue set_tasks_queue].
  unfold Queue.put. rewrite waiters_app.
  replace (waiters s [env]) with 1%nat
    by (unfold waiters, env, waiting_envelope; rewrite filter_cons;
        cbn; rewrite decide_True by reflexivity; reflexivity).
  rewrite Nat.add_comm. cbn [Nat.add replicate].
  assert (Hget : Queue.get timeout (None :: replicate (waiters s (_connection_tasks_queue self)) (@None exn))
                 = Returns (None, replicate (waiters s (_connection_tasks_queue self)) None)).
  { unfold Queue.get. destruct timeout as [t|]; [|reflexivity].
    specialize (Ht t eq_refl). destruct (Z.ltb_spec t 0); [lia|reflexivity]. }
  unfold id. cbn [app]. rewrite Hget.
  eexists. split; [reflexivity|]. cbn in *. unfold Queue.put in *.
  rewrite length_app in Hn. cbn in Hn.
  repeat split; auto. lia.
Qed.

(** X3. A waiting call made from another thread than the consumer thread
    returns normally when the consumer thread drains the queue and every
    channel method succeeds: the envelopes queued before it and then its
    own reach the broker, in that order, the queue is left empty, and the
    rest of the program is untouched.  This holds for no timeout and for
    any timeout that is not negative. *)
Theorem waiting_call_confirmed {X : Type} broker chan caller method target
    timeout message (x : X) self w :
  _consumer_thread self <> Some caller ->
  (forall t, timeout = Some t -> 0 <= t) ->
  (forall i, (i <= length (_connection_tasks_queue self))%nat ->
             broker (ncalls w + i)%nat = None) ->
  let result :=
    channel_method (actor_drains broker chan) caller method target true timeout
      message x self w in
  result.1.1.1 = Returns tt
  /\ result.1.1.2 = x
  /\ _connection_tasks_queue result.1.2 = []
  /\ sent result.2
     = sent w ++ map (delivery chan)
                   (_connection_tasks_queue self
                    ++ [waiting_envelope method target message w]).
Proof.
  intros Hthread Ht Hok result. subst result.
  destruct (channel_method_confirmed broker chan caller method target timeout
              message x self w Hthread Ht Hok) as (w' & -> & Hs & _).
  cbn. auto.
Qed.

Lemma waiting_call_confirmed_witness :
  let self :=
    enqueued E1
      (AMQPConnection_init [] (HostStr "localhost") localhost_params None) in
  let result :=
    channel_method (actor_drains healthy (0%nat, 1%nat)) 3%nat "basic_ack"
      (Some (0%nat, 2%nat)) true None [("delivery_tag", "1")] tt self world0 in
  result.1.1.1 = Returns tt
  /\ sent result.2
     = [((0%nat, 1%nat), "publish", [("body", "1")]);
        ((0%nat, 2%nat), "basic_ack", [("delivery_tag", "1")])].
Proof.
  intros self result.
  destruct (waiting_call_confirmed healthy (0%nat, 1%nat) 3%nat "basic_ack"
              (Some (0%nat, 2%nat)) None [("delivery_tag", "1")] tt self world0)
    as (Hr & _ & _ & Hs).
  - discriminate.
  - discriminate.
  - reflexivity.
  - split; [exact Hr|exact Hs].
Defined.

Lemma replies_exist_no_waiters w q :
  replies_exist w q -> waiters (fresh (dom (slots w))) q = 0%nat.
Proof.
  unfold replies_exist, waiters. induction 1 as [|e q He _ IH]; [reflexivity|].
  rewrite filter_cons. destruct (decide _) as [Heq|]; [|exact IH].
  exfalso. apply He in Heq. exact (is_fresh _ Heq).
Qed.

(** A drain that delivers [pre] and then meets an exception other than
    [ConnectionClosed] on [x]. *)
Lemma drain_error pre : forall x post e broker chan closed w,
  (forall i, (i < length pre)%nat -> broker (ncalls w + i)%nat = None) ->
  broker (ncalls w + length pre)%nat = Some e ->
  e <> ConnectionClosed ->
  is_Exception e = true ->
  exists w',
    _process_publish_loop broker chan closed (pre ++ x :: post) w
      = (Raises e, post, w')
    /\ sent w' = sent w ++ map (delivery chan) pre
    /\ ncalls w' = S (ncalls w + length pre)
    /\ (forall s,
          default [] (slots w' !! s)
          = default [] (slots w !! s) ++ replicate (waiters s pre) None
            ++ (if decide (env_err_queue x = Some s) then [Some e] else [])).
Proof.
  induction pre as [|p pre IH]; intros x post e broker chan closed w Hok Hfail Hne Hex.
  - cbn [app length _process_publish_loop] in *. unfold invoke.
    rewrite Nat.add_0_r in Hfail. rewrite Hfail.
    eexists. split; [|split; [|split]].
    + destruct e; try congruence; try discriminate; cbn; reflexivity.
    + destruct (env_err_queue x); cbn; rewrite app_nil_r; reflexivity.
    + destruct (env_err_queue x); cbn; lia.
    + intros s. cbn [waiters filter length replicate app].
      destruct (env_err_queue x) as [s0|].
      * rewrite slot_put_lookup. cbn [slots add_call].
        destruct (decide (s0 = s)) as [->|Hs];
          destruct (decide (Some _ = Some s)) as [Heq|Hneq];
          try congruence; reflexivity.
      * destruct (decide (None = Some s)); [discriminate|].
        rewrite app_nil_r. reflexivity.
  - cbn [app _process_publish_loop]. unfold invoke.
    pose proof (Hok 0%nat) as H0. rewrite Nat.add_0_r in H0.
    rewrite H0 by (cbn; lia).
    set (w1 := add_sent _ (add_call w)).
    set (w2 := match env_err_queue p with Some s => slot_put s None w1 | None => w1 end).
    assert (Hn : ncalls w2 = S (ncalls w))
      by (subst w2 w1; destruct (env_err_queue p); reflexivity).
    assert (Hs : sent w2 = sent w ++ [delivery chan p])
      by (subst w2 w1; destruct (env_err_queue p); reflexivity).
    destruct (IH x post e broker chan closed w2) as (w' & -> & Hs' & Hn' & Hsl); auto.
    { intros i Hi. rewrite Hn. cbn. rewrite <- (Hok (S i)) by (cbn; lia).
      f_equal. lia. }
    { rewrite Hn. cbn. rewrite <- Hfail. f_equal. cbn. lia. }
    exists w'. split; [reflexivity|]. split; [|split].
    + rewrite Hs', Hs, <- app_assoc. reflexivity.
    + rewrite Hn', Hn. cbn. lia.
    + intros s. rewrite Hsl, waiters_cons. subst w2.
      destruct (env_err_queue p) as [s0|].
      * rewrite slot_put_lookup. subst w1. cbn [slots add_sent add_call].
        rewrite <- !app_assoc. f_equal.
        destruct (decide (s0 = s)) as [->|Hs0];
          destruct (decide (Some _ = Some s)) as [Heq|Hneq];
          try congruence; reflexivity.
      * destruct (decide (None = Some s)); [discriminate|reflexivity].
Qed.

(** X4. When the channel method of a waiting call raises an exception
    other than [ConnectionClosed] in the consumer thread, the caller gets
    that very exception raised by [channel_method]; the envelopes queued
    before it have been sent, its own envelope is neither sent nor queued
    again.  (The queued envelopes refer to reply queues that exist.) *)
Theorem waiting_call_gets_the_error {X : Type} broker chan caller method target
    timeout message (x : X) self w e :
  _consumer_thread self <> Some caller ->
  (forall t, timeout = Some t -> 0 <= t) ->
  replies_exist w (_connection_tasks_queue self) ->
  (forall i, (i < length (_connection_tasks_queue self))%nat ->
             broker (ncalls w + i)%nat = None) ->
  broker (ncalls w + length (_connection_tasks_queue self))%nat = Some e ->
  e <> ConnectionClosed ->
  is_Exception e = true ->
  let result :=
    channel_method (actor_drains broker chan) caller method target true timeout
      message x self w in
  result.1.1.1 = Raises e
  /\ _connection_tasks_queue result.1.2 = []
  /\ sent result.2
     = sent w ++ map (delivery chan) (_connection_tasks_queue self).
Proof.
  intros Hthread Ht Hwf Hok Hfail Hne Hex result. subst result.
  rewrite (channel_method_waits _ _ _ _ _ _ _ _ _ Hthread).
  rewrite actor_drains_eq. cbv zeta. cbn [fst snd].
  set (env := waiting_envelope method target message w).
  set (s := fresh (dom (slots w))).
  unfold _process_publish.
  cbn [enqueued _connection_tasks_queue set_tasks_queue _closed].
  unfold Queue.put.
  destruct (drain_error (_connection_tasks_queue self) env [] e broker chan
              (_closed self) (slot_new w).2) as (w' & -> & Hs & _ & Hsl); auto.
  cbn [fst snd]. rewrite Hsl.
  rewrite (replies_exist_no_waiters _ _ Hwf : waiters s _ = 0%nat).
  cbn [slot_new snd slots set_slots]. fold s. rewrite lookup_insert_eq.
  rewrite decide_True by reflexivity. cbn [default replicate app]. unfold id.
  cbn [app].
  assert (Hget : Queue.get timeout [Some e] = Returns (Some e, [])).
  { unfold Queue.get. destruct timeout as [t|]; [|reflexivity].
    specialize (Ht t eq_refl). destruct (Z.ltb_spec t 0); [lia|reflexivity]. }
  rewrite Hget, Hex. cbn. repeat split. exact Hs.
Qed.

Lemma waiting_call_gets_the_error_witness :
  let self :=
    enqueued E1
      (AMQPConnection_init [] (HostStr "localhost") localhost_params None) in
  let result :=
    channel_method
      (actor_drains (raises_at 1 (ChannelClosed "NOT_FOUND")) (0%nat, 1%nat))
      3%nat "publish" None true (Some 5) [("exchange", "nowhere")] tt self
      world0 in
  result.1.1.1 = Raises (ChannelClosed "NOT_FOUND")
  /\ _connection_tasks_queue result.1.2 = []
  /\ sent result.2 = [((0%nat, 1%nat), "publish", [("body", "1")])].
Proof.
  intros self result.
  apply (waiting_call_gets_the_error (raises_at 1 (ChannelClosed "NOT_FOUND"))
           (0%nat, 1%nat) 3%nat "publish" None (Some 5) [("exchange", "nowhere")]
           tt self world0 (ChannelClosed "NOT_FOUND")).
  - discriminate.
  - intros t [= <-]. lia.
  - repeat constructor. discriminate.
  - intros [|i] Hi; [reflexivity|cbn in Hi; lia].
  - reflexivity.
  - discriminate.
  - reflexivity.
Defined.

(** X5. When the channel method of a waiting call meets
    [ConnectionClosed] on a connection that is not closed, the caller is
    not told: nothing is put on its reply queue, so that the call raises
    [Queue.Empty] when its timeout runs out and stays suspended when it has
    none; either way its envelope is still on the outbound queue, to be
    sent after the reconnect. *)
Theorem waiting_call_loses_connection {X : Type} broker chan caller method target
    t message (x : X) self w :
  _consumer_thread self <> Some caller ->
  0 <= t ->
  _closed self = false ->
  replies_exist w (_connection_tasks_queue self) ->
  (forall i, (i < length (_connection_tasks_queue self))%nat ->
             broker (ncalls w + i)%nat = None) ->
  broker (ncalls w + length (_connection_tasks_queue self))%nat
    = Some ConnectionClosed ->
  let timed :=
    channel_method (actor_drains broker chan) caller method target true (Some t)
      message x self w in
  let untimed :=
    channel_method (actor_drains broker chan) caller method target true None
      message x self w in
  timed.1.1.1 = Raises QueueEmpty
  /\ untimed.1.1.1 = Blocks
  /\ _connection_tasks_queue timed.1.2 = [waiting_envelope method target message w]
  /\ sent timed.2 = sent w ++ map (delivery chan) (_connection_tasks_queue self).
Proof.
  intros Hthread Ht Hopen Hwf Hok Hfail timed untimed. subst timed untimed.
  rewrite !(channel_method_waits _ _ _ _ _ _ _ _ _ Hthread).
  rewrite actor_drains_eq. cbv zeta. cbn [fst snd].
  set (env := waiting_envelope method target message w).
  set (s := fresh (dom (slots w))).
  unfold _process_publish.
  cbn [enqueued _connection_tasks_queue set_tasks_queue _closed].
  unfold Queue.put. rewrite Hopen.
  destruct (drain_connection_closed (_connection_tasks_queue self) env []
              broker chan (slot_new w).2) as (w' & -> & Hs & Hsl & _); auto.
  cbn [fst snd]. rewrite Hsl.
  rewrite (drain_all_replies _ broker chan false (slot_new w).2 s) by exact Hok.
  rewrite (replies_exist_no_waiters _ _ Hwf : waiters s _ = 0%nat).
  cbn [slot_new snd slots set_slots]. fold s. rewrite lookup_insert_eq.
  cbn [default replicate app]. unfold id. cbn [app Queue.get].
  destruct (Z.ltb_spec t 0); [lia|]. cbn. repeat split. exact Hs.
Qed.

Lemma waiting_call_loses_connection_witness :
  let self :=
    enqueued E1
      (AMQPConnection_init [] (HostStr "localhost") localhost_params None) in
  let result :=
    channel_method (actor_drains (raises_at 1 ConnectionClosed) (0%nat, 1%nat))
      3%nat "publish" None true (Some 5) [("body", "2")] tt self world0 in
  result.1.1.1 = Raises QueueEmpty
  /\ _connection_tasks_queue result.1.2
     = [mkEnvelope "publish" [("body", "2")] (Some 0%nat) None].
Proof.
  intros self result.
  destruct (waiting_call_loses_connection (raises_at 1 ConnectionClosed)
              (0%nat, 1%nat) 3%nat "publish" None 5 [("body", "2")] tt self
              world0) as (H1 & _ & H3 & _).
  - discriminate.
  - lia.
  - reflexivity.
  - repeat constructor. discriminate.
  - intros [|i] Hi; [reflexivity|cbn in Hi; lia].
  - reflexivity.
  - split; [exact H1|exact H3].
Defined.

(** ** Connecting under a deadline *)


(** Refusals that are all retried, then the calls [last]: the loop
    reaches [last] with the clock, the sleeps and the backoff moved on as
    the law says, and with a host to dial. *)
Lemma connect_loop_retries rand atts : forall i deadline last self w,
  Forall failing atts ->
  _reconnect_backoff self = backoff_law i ->
  has_hosts rand self ->
  _pika_connection self = None ->
  retried deadline (now w) i atts = true ->
  exists self1 w1,
    connect_loop rand (atts ++ last) deadline self w
      = connect_loop rand last deadline self1 w1
    /\ slept w1 = slept w ++ map backoff_law (seq i (length atts))
    /\ now w1 = time_after (now w) i atts
    /\ length (dialled w1) = (length (dialled w) + length atts)%nat
    /\ _reconnect_backoff self1 = backoff_law (i + length atts)
    /\ has_hosts rand self1
    /\ _pika_connection self1 = None
    /\ _handlers self1 = _handlers self
    /\ registered w1 = registered w
    /\ _error self1 = _error self.
Proof.
  induction atts as [|att atts IH]; intros i deadline last self w Hall Hb Hg Hpc Hr.
  { exists self, w. cbn. rewrite app_nil_r, !Nat.add_0_r. repeat split; auto. }
  apply Forall_cons in Hall as [Hatt Hall].
  destruct (has_hosts_next rand self Hg) as (hosts & tl & params & Hn & Hne).
  cbn [app connect_loop]. rewrite Hn. cbn [yielded default].
  cbn [retried] in Hr. apply andb_true_iff in Hr as [Hd Hr].
  apply negb_true_iff in Hd.
  destruct Hatt as (e & He & Hc).
  unfold _get_pika_connection. rewrite He, Hc.
  cbn [_get_reconnect_backoff _reconnect_backoff set_connection_params].
  cbn [now time_sleep set_now add_slept add_dialled]. rewrite Hb.
  rewrite Hd.
  match goal with
  | |- context [connect_loop rand (atts ++ last) deadline ?s ?v] =>
      destruct (IH (S i) deadline last s v Hall) as
        (self1 & w1 & -> & Hs & Ht & Hl & Hb1 & Hg1 & Hpc1 & Hh & Hreg & Herr)
  end.
  - cbn. rewrite <- backoff_law_step. reflexivity.
  - unfold has_hosts. cbn. exact Hne.
  - reflexivity.
  - cbn. exact Hr.
  - exists self1, w1. cbn in *. split; [reflexivity|].
    rewrite Hs, Ht, Hl, Hb1, length_app. cbn.
    repeat split; auto; try lia;
      try (rewrite <- app_assoc; reflexivity); f_equal; lia.
Qed.

Lemma time_after_snoc atts : forall t i att,
  time_after t i (atts ++ [att])
  = time_after t i atts + att_elapsed att + backoff_law (i + length atts).
Proof.
  induction atts as [|a atts IH]; intros t i att; cbn [app time_after length].
  - rewrite Nat.add_0_r. reflexivity.
  - rewrite IH. do 2 f_equal. lia.
Qed.



(** X7. [connect] gives up on the first refusal after whose sleep the
    deadline has passed: it raises the exception of that refusal, having
    slept after it as after the refusals before, stores the exception in
    [_error], sets the event, leaves [_pika_connection] empty, registers no
    handler and does not use the attempts that remain. *)
Theorem connect_gives_up_at_deadline rand atts att e rest self w :
  _reconnect_backoff self = 1 ->
  has_hosts rand self ->
  Forall failing atts ->
  att_raises att = Some e ->
  is_AMQPConnectionError e = true ->
  retried (connect_deadline self (now w)) (now w) 0 atts = true ->
  deadline_passed (connect_deadline self (now w))
    (time_after (now w) 0 (atts ++ [att])) = true ->
  let result := connect rand (atts ++ att :: rest) self w in
  result.1.1.1 = Some (Raises e)
  /\ result.2 = rest
  /\ slept result.1.2 = slept w ++ backoff_seq (S (length atts))
  /\ registered result.1.2 = registered w
  /\ _pika_connection result.1.1.2 = None
  /\ _error result.1.1.2 = Some e
  /\ connect_wait result.1.1.2 = true.
Proof.
  intros Hb Hg Hall He Hc Hr Hd result. subst result. unfold connect.
  fold (connect_deadline
          (set_pika_connection None (set_error None self)) (now w)).
  change (connect_deadline (set_pika_connection None (set_error None self)) (now w))
    with (connect_deadline self (now w)).
  destruct (connect_loop_retries rand atts 0 (connect_deadline self (now w))
              (att :: rest) (set_pika_connection None (set_error None self)) w)
    as (self1 & w1 & -> & Hs & Ht & _ & Hb1 & Hg1 & Hpc & _ & Hreg & _); auto.
  destruct (has_hosts_next rand self1 Hg1) as (hosts & tl & params & Hn & _).
  cbn [connect_loop]. rewrite Hn. cbn [yielded default].
  unfold _get_pika_connection. rewrite He, Hc.
  cbn [_get_reconnect_backoff _reconnect_backoff set_connection_params].
  cbn [now time_sleep set_now add_slept add_dialled].
  assert (Htime : time_after (now w) 0 (atts ++ [att])
                  = now w1 + att_elapsed att + _reconnect_backoff self1).
  { rewrite Hb1, Ht. apply time_after_snoc. }
  rewrite Htime in Hd. rewrite Hd. cbn.
  rewrite Hs, Hreg, Hpc, Hb1. cbn. repeat split.
  rewrite <- app_assoc. f_equal.
  change (2 ^ Z.of_nat 0 :: map backoff_law (seq 1 (length atts)))
    with (map backoff_law (seq 0 (S (length atts)))).
  rewrite seq_S, map_app. reflexivity.
Qed.

(** A timeout of five seconds: the third sleep ends at second 7. *)
Lemma connect_gives_up_at_deadline_witness :
  let result :=
    connect (fun _ => 0%nat)
      ([refused_attempt; refused_attempt] ++ refused_attempt :: [accepted])
      (AMQPConnection_init [4%nat] (HostStr "localhost") localhost_params (Some 5))
      world0 in
  result.1.1.1 = Some (Raises (AMQPConnectionError "Connection refused"))
  /\ result.2 = [accepted]
  /\ slept result.1.2 = [1; 2; 4]
  /\ registered result.1.2 = [].
Proof.
  intros result.
  destruct (connect_gives_up_at_deadline (fun _ => 0%nat)
              [refused_attempt; refused_attempt] refused_attempt
              (AMQPConnectionError "Connection refused") [accepted]
              (AMQPConnection_init [4%nat] (HostStr "localhost") localhost_params
                 (Some 5))
              world0) as (H1 & H2 & H3 & H4 & _).
  - reflexivity.
  - discriminate.
  - repeat constructor; apply refused_attempt_failing.
  - reflexivity.
  - reflexivity.
  - reflexivity.
  - reflexivity.
  - repeat split; assumption.
Defined.

(** X8. An exception of [pika.BlockingConnection] that is not an
    [AMQPConnectionError] is not retried: [connect] raises it at once,
    without sleeping after it and without moving the backoff, and stores it
    in [_error] with the event set. *)
Theorem connect_does_not_retry_other_errors rand atts att e rest self w :
  _reconnect_backoff self = 1 ->
  has_hosts rand self ->
  Forall failing atts ->
  att_raises att = Some e ->
  is_AMQPConnectionError e = false ->
  retried (connect_deadline self (now w)) (now w) 0 atts = true ->
  let result := connect rand (atts ++ att :: rest) self w in
  result.1.1.1 = Some (Raises e)
  /\ slept result.1.2 = slept w ++ backoff_seq (length atts)
  /\ _reconnect_backoff result.1.1.2 = backoff_law (length atts)
  /\ _pika_connection result.1.1.2 = None
  /\ _error result.1.1.2 = Some e
  /\ connect_wait result.1.1.2 = true.
Proof.
  intros Hb Hg Hall He Hc Hr result. subst result. unfold connect.
  fold (connect_deadline
          (set_pika_connection None (set_error None self)) (now w)).
  change (connect_deadline (set_pika_connection None (set_error None self)) (now w))
    with (connect_deadline self (now w)).
  destruct (connect_loop_retries rand atts 0 (connect_deadline self (now w))
              (att :: rest) (set_pika_connection None (set_error None self)) w)
    as (self1 & w1 & -> & Hs & _ & _ & Hb1 & Hg1 & Hpc & _ & _ & _); auto.
  destruct (has_hosts_next rand self1 Hg1) as (hosts & tl & params & Hn & _).
  cbn [connect_loop]. rewrite Hn. cbn [yielded default].
  unfold _get_pika_connection. rewrite He, Hc. cbn.
  rewrite Hs, Hpc, Hb1. repeat split.
Qed.

Lemma connect_does_not_retry_other_errors_witness :
  let result :=
    connect (fun _ => 0%nat)
      ([refused_attempt] ++ refused (OtherException "socket.gaierror") :: [accepted])
      (AMQPConnection_init [] (HostStr "localhost") localhost_params None)
      world0 in
  result.1.1.1 = Some (Raises (OtherException "socket.gaierror"))
  /\ slept result.1.2 = [1]
  /\ _reconnect_backoff result.1.1.2 = 2.
Proof.
  intros result.
  destruct (connect_does_not_retry_other_errors (fun _ => 0%nat)
              [refused_attempt] (refused (OtherException "socket.gaierror"))
              (OtherException "socket.gaierror") [accepted]
              (AMQPConnection_init [] (HostStr "localhost") localhost_params None)
              world0) as (H1 & H2 & H3 & _).
  - reflexivity.
  - discriminate.
  - repeat constructor; apply refused_attempt_failing.
  - reflexivity.
  - reflexivity.
  - reflexivity.
  - repeat split; assumption.
Defined.

(** ** Starting the consumer thread *)




(** ** The hosts that are dialled *)

Lemma hosts_yielded_split n : forall m rand raw pp g,
  hosts_yielded (n + m) rand raw pp g
  = match hosts_yielded n rand raw pp g, gen_advance n rand raw pp g with
    | Some l, Some g' => (l ++.) <$> hosts_yielded m rand raw pp g'
    | _, _ => None
    end.
Proof.
  induction n as [|n IH]; intros m rand raw pp g.
  - cbn. destruct (hosts_yielded m rand raw pp g); reflexivity.
  - cbn [Nat.add hosts_yielded gen_advance].
    destruct (gen_next 1 rand raw pp g) as [g'|]; [|reflexivity].
    destruct (yielded g') as [p|].
    + rewrite IH.
      destruct (hosts_yielded n rand raw pp g') as [l|]; [|reflexivity].
      cbn. destruct (gen_advance n rand raw pp g') as [g''|]; [|reflexivity].
      destruct (hosts_yielded m rand raw pp g''); reflexivity.
    + destruct (gen_advance n rand raw pp g'); reflexivity.
Qed.

(** The loop of [connect] dials, for each attempt that it makes, the host
    of the object that the generator hands out next. *)
Lemma connect_loop_dials rand atts : forall deadline self w,
  exists k l,
    length atts = (k + length (connect_loop rand atts deadline self w).2)%nat
    /\ gen_advance k rand (raw_host_of self) (as_pika_params self)
         (_connection_params self)
       = Some (_connection_params (connect_loop rand atts deadline self w).1.1.2)
    /\ hosts_yielded k rand (raw_host_of self) (as_pika_params self)
         (_connection_params self) = Some l
    /\ dialled (connect_loop rand atts deadline self w).1.2 = dialled w ++ l
    /\ raw_host_of (connect_loop rand atts deadline self w).1.1.2 = raw_host_of self
    /\ as_pika_params (connect_loop rand atts deadline self w).1.1.2
       = as_pika_params self.
Proof.
  induction atts as [|att atts IH]; intros deadline self w.
  { exists 0%nat, []. cbn. rewrite app_nil_r. repeat split; auto. }
  cbn [connect_loop].
  destruct (gen_next 1 rand (raw_host_of self) (as_pika_params self)
              (_connection_params self)) as [g|] eqn:Hn.
  2:{ exists 0%nat, []. cbn. rewrite app_nil_r. repeat split; auto. }
  assert (Hy : exists p, yielded g = Some p).
  { unfold gen_next in Hn.
    destruct (_connection_params self) as [|hs rs ps];
      [destruct (gen_hosts rand (raw_host_of self)) as [|h hs]
      |destruct rs as [|r rs]; [destruct hs as [|h hs]|]];
      cbn in Hn; try discriminate; injection Hn as <-; cbn; eauto. }
  destruct Hy as [p Hp]. rewrite Hp. cbn [default].
  unfold _get_pika_connection.
  destruct (att_raises att) as [e|].
  - destruct (is_AMQPConnectionError e).
    + cbn [_get_reconnect_backoff].
      destruct (deadline_passed _ _).
      * exists 1%nat, [host p]. cbn. rewrite Hn, Hp. cbn. repeat split; auto.
      * match goal with
        | |- context [connect_loop rand atts deadline ?s ?v] =>
            destruct (IH deadline s v) as (k & l & Hk & Hg & Hh & Hd & Hraw & Hpp)
        end.
        pose proof Hd as Hd'. cbn in Hg, Hh, Hraw, Hpp.
        exists (S k), (host p :: l). repeat split.
        -- cbn [length]. lia.
        -- cbn [gen_advance]. rewrite Hn. exact Hg.
        -- cbn [hosts_yielded]. rewrite Hn, Hp, Hh. reflexivity.
        -- rewrite Hd. cbn. rewrite <- app_assoc. reflexivity.
        -- exact Hraw.
        -- exact Hpp.
    + exists 1%nat, [host p]. cbn. rewrite Hn, Hp. cbn. repeat split; auto.
  - exists 1%nat, [host p]. cbn. rewrite Hn, Hp. cbn. repeat split; auto.
Qed.

Lemma connect_dials rand atts self w :
  exists k l,
    length atts = (k + length (connect rand atts self w).2)%nat
    /\ gen_advance k rand (raw_host_of self) (as_pika_params self)
         (_connection_params self)
       = Some (_connection_params (connect rand atts self w).1.1.2)
    /\ hosts_yielded k rand (raw_host_of self) (as_pika_params self)
         (_connection_params self) = Some l
    /\ dialled (connect rand atts self w).1.2 = dialled w ++ l
    /\ raw_host_of (connect rand atts self w).1.1.2 = raw_host_of self
    /\ as_pika_params (connect rand atts self w).1.1.2 = as_pika_params self.
Proof.
  unfold connect.
  match goal with
  | |- context [connect_loop rand atts ?d ?s w] =>
      destruct (connect_loop_dials rand atts d s w)
        as (k & l & Hk & Hg & Hh & Hd & Hraw & Hpp);
      destruct (connect_loop rand atts d s w) as [[[r s'] w'] rest]
  end.
  cbn in Hk, Hg, Hh, Hd, Hraw, Hpp.
  exists k, l. destruct r as [[c|e|]|]; cbn; auto 10.
Qed.

(** X10. The host rotation goes on across calls of [connect]: over two
    calls in a row, the hosts given to [pika.BlockingConnection] are, in
    order, those of as many objects as attempts were made, handed out by the
    generator from the state it had before the first call.  A reconnect
    thus starts with the host after the one dialled last. *)
Theorem reconnect_resumes_rotation rand atts1 atts2 self w :
  let first := connect rand atts1 self w in
  let second := connect rand atts2 first.1.1.2 first.1.2 in
  exists k1 k2 l,
    length atts1 = (k1 + length first.2)%nat
    /\ length atts2 = (k2 + length second.2)%nat
    /\ hosts_yielded (k1 + k2) rand (raw_host_of self) (as_pika_params self)
         (_connection_params self) = Some l
    /\ dialled second.1.2 = dialled w ++ l.
Proof.
  intros first second.
  destruct (connect_dials rand atts1 self w)
    as (k1 & l1 & Hk1 & Hg1 & Hh1 & Hd1 & Hraw & Hpp).
  destruct (connect_dials rand atts2 first.1.1.2 first.1.2)
    as (k2 & l2 & Hk2 & _ & Hh2 & Hd2 & _ & _).
  fold first in Hk1, Hg1, Hd1, Hraw, Hpp. fold second in Hk2, Hd2.
  rewrite Hraw, Hpp in Hh2.
  exists k1, k2, (l1 ++ l2). repeat split; auto.
  - rewrite hosts_yielded_split, Hh1, Hg1, Hh2. reflexivity.
  - rewrite Hd2, Hd1, <- app_assoc. reflexivity.
Qed.

(** Three hosts: the first connect is accepted by the second host dialled,
    the reconnect starts with the third. *)
Example reconnect_dials_next_host :
  let self :=
    AMQPConnection_init [] (HostSeq ["h1"; "h2"; "h3"]) localhost_params None in
  let first := connect (fun _ => 0%nat) [refused_attempt; accepted] self world0 in
  let second :=
    connect (fun _ => 0%nat) [refused_attempt; accepted] first.1.1.2 first.1.2 in
  dialled first.1.2 = ["h2"; "h3"]
  /\ dialled second.1.2 = ["h2"; "h3"; "h1"; "h2"].
Proof. vm_compute. split; reflexivity. Qed.

(** ** Leaving the consumer loop *)

(** X11. When the loop of [consume] finds the connection closed, it
    drains the outbound queue once more and ends: if no channel method
    raises, [consume] returns with everything that was queued handed to the
    broker in queue order on the out-channel in use, and dials no host. *)
Theorem consume_drains_on_close rand broker p passes out_channel self w
    self1 w1 :
  pass_others p (self, w) = (self1, w1) ->
  _closed self1 = true ->
  (forall i, (i < length (_connection_tasks_queue self1))%nat ->
             broker (ncalls w1 + i)%nat = None) ->
  exists w',
    consume_loop rand broker (p :: passes) out_channel self w
      = Some (Returns tt, set_tasks_queue [] self1, w')
    /\ sent w' = sent w1
                 ++ map (delivery out_channel) (_connection_tasks_queue self1)
    /\ dialled w' = dialled w1.
Proof.
  intros Ho Hc Hok. cbn [consume_loop]. rewrite Ho, Hc.
  unfold consume_exit, _process_publish.
  destruct (drain_frame (_connection_tasks_queue self1) broker out_channel
              (_closed self1) w1) as (Hd & _ & _).
  destruct (drain_all (_connection_tasks_queue self1) broker out_channel
              (_closed self1) w1 Hok) as (w' & Heq & Hs & _).
  rewrite Heq in *. exists w'. cbn in *. auto.
Qed.

Lemma consume_drains_on_close_witness :
  exists w',
    consume_loop (fun _ => 0%nat) healthy
      [mkPass (fun '(c, w) => (set_closed true (enqueued E2 (enqueued E1 c)), w))
         None []]
      (0%nat, 1%nat)
      (AMQPConnection_init [] (HostStr "localhost") localhost_params None) world0
    = Some (Returns tt,
            set_tasks_queue []
              (set_closed true (enqueued E2 (enqueued E1
                 (AMQPConnection_init [] (HostStr "localhost") localhost_params
                    None)))),
            w')
    /\ sent w' = [delivery (0%nat, 1%nat) E1; delivery (0%nat, 1%nat) E2].
Proof.
  destruct (consume_drains_on_close (fun _ => 0%nat) healthy
              (mkPass (fun '(c, w) =>
                         (set_closed true (enqueued E2 (enqueued E1 c)), w))
                 None [])
              [] (0%nat, 1%nat)
              (AMQPConnection_init [] (HostStr "localhost") localhost_params None)
              world0 _ _ eq_refl eq_refl) as (w' & H1 & H2 & _).
  - intros i Hi. reflexivity.
  - exists w'. split; [exact H1|exact H2].
Defined.

(** X12. A [ChannelClosed] raised by the channel method of an envelope
    ends the consumer loop for good: the exception is put on the reply
    queue of that envelope, "Channel closed: ..." is logged, the envelopes
    behind it are still drained (here without error), and [consume]
    returns without dialling any host, whatever passes would follow. *)
Theorem consume_ends_on_channel_closed rand broker p passes out_channel self w
    self1 w1 pre x post msg :
  pass_others p (self, w) = (self1, w1) ->
  pass_events p = None ->
  _closed self1 = false ->
  _connection_tasks_queue self1 = pre ++ x :: post ->
  (forall i, (i < length pre)%nat -> broker (ncalls w1 + i)%nat = None) ->
  broker (ncalls w1 + length pre)%nat = Some (ChannelClosed msg) ->
  (forall i, (length pre < i <= length pre + length post)%nat ->
             broker (ncalls w1 + i)%nat = None) ->
  exists w',
    consume_loop rand broker (p :: passes) out_channel self w
      = Some (Returns tt, set_tasks_queue [] self1, w')
    /\ sent w' = sent w1 ++ map (delivery out_channel) (pre ++ post)
    /\ log w' = log w1 ++ [("ERROR", "Channel closed: " +:+ msg)]
    /\ dialled w' = dialled w1
    /\ (forall s, env_err_queue x = Some s ->
          exists before,
            default [] (slots w' !! s)
            = before ++ Some (ChannelClosed msg)
                :: replicate (waiters s post) None).
Proof.
  intros Ho He Hc Hq Hpre Hfail Hpost. cbn [consume_loop].
  rewrite Ho, Hc, He. unfold _process_publish at 1. rewrite Hq, Hc.
  destruct (drain_error pre x post (ChannelClosed msg) broker out_channel false
              w1 Hpre Hfail) as (w2 & Heq & Hs2 & Hn2 & Hsl2);
    [discriminate|reflexivity|].
  pose proof (drain_frame (pre ++ x :: post) broker out_channel false w1)
    as (Hd2 & Hl2 & _).
  rewrite Heq in *. cbn [fst snd] in *.
  unfold consume_exit, _process_publish.
  cbn [_connection_tasks_queue set_tasks_queue _closed]. rewrite Hc.
  set (w3 := add_log "ERROR" ("Channel closed: " +:+ msg) w2).
  assert (Hok3 : forall i, (i < length post)%nat ->
                           broker (ncalls w3 + i)%nat = None).
  { intros i Hi. subst w3. cbn [ncalls add_log]. rewrite Hn2.
    rewrite <- (Hpost (S (length pre + i))) by lia. f_equal. lia. }
  pose proof (drain_frame post broker out_channel false w3) as (Hd3 & Hl3 & _).
  pose proof (drain_all_replies post broker out_channel false w3) as Hrep.
  destruct (drain_all post broker out_channel false w3 Hok3)
    as (w' & Heq3 & Hs3 & _).
  rewrite Heq3 in *. cbn [fst snd] in *. exists w'.
  split; [reflexivity|]. split; [|split; [|split]].
  - rewrite Hs3. subst w3. cbn [sent add_log]. rewrite Hs2, map_app, app_assoc.
    reflexivity.
  - rewrite Hl3. subst w3. cbn [log add_log]. rewrite Hl2. reflexivity.
  - rewrite Hd3. subst w3. cbn [dialled add_log]. exact Hd2.
  - intros s Hx. rewrite (Hrep s Hok3). subst w3. cbn [slots add_log].
    rewrite Hsl2, decide_True by exact Hx.
    exists (default [] (slots w1 !! s) ++ replicate (waiters s pre) None).
    rewrite <- !app_assoc. reflexivity.
Qed.

Lemma consume_ends_on_channel_closed_witness :
  exists w',
    consume_loop (fun _ => 0%nat) (raises_at 1 (ChannelClosed "NOT_FOUND"))
      [mkPass (fun '(c, w) => (enqueued E2 (enqueued E0 (enqueued E1 c)), w))
         None [accepted]]
      (0%nat, 1%nat)
      (AMQPConnection_init [] (HostStr "localhost") localhost_params None) world0
    = Some (Returns tt,
            set_tasks_queue []
              (enqueued E2 (enqueued E0 (enqueued E1
                 (AMQPConnection_init [] (HostStr "localhost") localhost_params
                    None)))),
            w')
    /\ sent w' = [delivery (0%nat, 1%nat) E1; delivery (0%nat, 1%nat) E2]
    /\ dialled w' = [].
Proof.
  destruct (consume_ends_on_channel_closed (fun _ => 0%nat)
              (raises_at 1 (ChannelClosed "NOT_FOUND"))
              (mkPass (fun '(c, w) =>
                         (enqueued E2 (enqueued E0 (enqueued E1 c)), w))
                 None [accepted])
              [] (0%nat, 1%nat)
              (AMQPConnection_init [] (HostStr "localhost") localhost_params None)
              world0 _ _ [E1] E0 [E2] "NOT_FOUND" eq_refl eq_refl eq_refl eq_refl)
    as (w' & H1 & H2 & _ & H4 & _).
  - intros [|i] Hi; [reflexivity|cbn in Hi; lia].
  - reflexivity.
  - intros [|[|[|i]]] Hi; cbn in Hi; try lia; reflexivity.
  - exists w'. repeat split; assumption.
Defined.

(** ** The worker pool of the task consumer *)






(** Scenario S4: a pool of two and four deliveries; two workers end. *)
Example pool_of_two :
  let d n := Delivered (0%nat, 2%nat) (mkDeliver n) no_properties "{}" in
  let s4 := pool_run loads_literal (pool_init "tasks" 2 world0)
              [d 1%nat; d 2%nat; d 3%nat; d 4%nat] in
  let s6 := pool_run loads_literal s4 [WorkerDone; WorkerDone] in
  let s8 := pool_run loads_literal s6 [WorkerDone; WorkerDone] in
  running s4 = 2%nat /\ length (_tasks_buffer s4.1.1) = 2%nat
  /\ running s6 = 2%nat /\ _tasks_buffer s6.1.1 = []
  /\ map snd (workers s6.1.2) = [1; 2; 3; 4]%nat
  /\ running s8 = 0%nat /\ _sem s8.1.1 = 2%nat.
Proof. vm_compute. repeat split. Qed.
(** ** The worker *)

Ltac confirm Hbroker w' Hs Hl Hw :=
  match goal with
  | |- context [channel_method (actor_drains ?b ?c) ?caller ?m ?t true None
                  ?msg ?x ?self ?w] =>
      destruct (channel_method_confirmed b c caller m t None msg x self w)
        as (w' & -> & Hs & _ & Hl & Hw);
      [ assumption
      | intros ? [=]
      | intros; apply Hbroker
      | ]
  end.



(** X16. When [handle_task] is cut short by an exception that is not an
    [Exception] (an interrupt, an exit), the worker dies with it: no reply
    is published and its pool slot is not released.  With the early ack the
    delivery has been acked before; with [late_ack] nothing at all has been
    sent, so that the broker still holds the delivery. *)
Theorem interrupted_task_keeps_its_slot json_dumps handle_task repr format_task
    broker out_channel caller chan properties full_task tag self conn w e :
  _consumer_thread conn <> Some caller ->
  _connection_tasks_queue conn = [] ->
  (forall n, broker n = None) ->
  handle_task full_task = inr e ->
  is_Exception e = false ->
  exists w',
    _process_message json_dumps handle_task repr format_task
      (actor_drains broker out_channel) caller chan properties full_task tag
      self conn w
    = (Raises e, self, (if late_ack self then conn else set_tasks_queue [] conn),
       w')
    /\ sent w' = sent w ++ (if late_ack self then [] else [ack_sent chan tag])
    /\ workers w' = workers w.
Proof.
  intros Hthread Hq Hbroker Hh He.
  unfold _process_message, ack. destruct (late_ack self).
  - rewrite Hh, He. exists w. rewrite app_nil_r. auto.
  - confirm Hbroker w1 Hs1 Hl1 Hw1. rewrite Hq in Hs1. cbn in Hs1.
    rewrite Hh, He. exists w1. auto.
Qed.

Lemma interrupted_task_keeps_its_slot_witness :
  let result :=
    _process_message dumps_literal dying_handler repr_class dumps_literal
      (actor_drains healthy (0%nat, 1%nat)) 9%nat (0%nat, 2%nat) asking
      (JObj []) 1%nat (set_sem 1 (TaskConsumer_init "tasks" 2))
      (AMQPConnection_init [] (HostStr "localhost") localhost_params None)
      world0 in
  result.1.1.1 = Raises (OtherBaseException "SystemExit")
  /\ _sem result.1.1.2 = 1%nat
  /\ sent result.2 = [((0%nat, 2%nat), "basic_ack", [("delivery_tag", "1")])].
Proof.
  intros result.
  destruct (interrupted_task_keeps_its_slot dumps_literal dying_handler
              repr_class dumps_literal healthy (0%nat, 1%nat) 9%nat
              (0%nat, 2%nat) asking (JObj []) 1%nat
              (set_sem 1 (TaskConsumer_init "tasks" 2))
              (AMQPConnection_init [] (HostStr "localhost") localhost_params None)
              world0 (OtherBaseException "SystemExit"))
    as (w' & Heq & Hs & _).
  - discriminate.
  - reflexivity.
  - reflexivity.
  - reflexivity.
  - reflexivity.
  - subst result. rewrite Heq. cbn. repeat split. exact Hs.
Defined.

(** ** Demultiplexing replies *)

(** One delivery, seen from the reply queue of correlation-ID [c]. *)
Lemma Blocking_process_lookup json_loads broker chan method properties body
    self w c :
  broker (ncalls w) = None ->
  _response_queues
    (Blocking_process json_loads broker chan method properties body self w).1.2
    !! c
  = (fun q => q ++ option_list (carries json_loads c
                                  (mkReply method properties body)))
    <$> _response_queues self !! c.
Proof.
  intros Hb. unfold Blocking_process, invoke, carries. rewrite Hb.
  cbn [reply_properties reply_body].
  assert (Hid : forall o : option (list json), o = (fun q => q ++ []) <$> o).
  { intros [q|]; cbn; [rewrite app_nil_r|]; reflexivity. }
  destruct (json_loads body) as [resp|]; cbn [fst snd].
  2:{ destruct (decide _); apply Hid. }
  destruct (correlation_id properties) as [cid|].
  2:{ rewrite decide_False by discriminate. apply Hid. }
  destruct (_response_queues self !! cid) as [q|] eqn:Hq; cbn [fst snd].
  - cbn [_response_queues set_response_queues].
    destruct (decide (cid = c)) as [->|Hne].
    + rewrite lookup_insert_eq, Hq, decide_True by reflexivity. reflexivity.
    + rewrite lookup_insert_ne by exact Hne.
      rewrite decide_False by congruence. apply Hid.
  - destruct (decide (Some cid = Some c)) as [[= ->]|]; [|apply Hid].
    rewrite Hq. reflexivity.
Qed.

Lemma Blocking_process_acks json_loads broker chan method properties body self w :
  broker (ncalls w) = None ->
  sent (Blocking_process json_loads broker chan method properties body self w).2
  = sent w ++ [ack_sent chan (delivery_tag method)]
  /\ ncalls (Blocking_process json_loads broker chan method properties body self w).2
     = S (ncalls w).
Proof.
  intros Hb. unfold Blocking_process, invoke. rewrite Hb.
  destruct (json_loads body); [destruct (correlation_id properties) as [cid|];
    [destruct (_response_queues self !! cid)|]|]; cbn; auto.
Qed.

Lemma reply_arrives_eq json_loads broker chan method properties body h conn w :
  reply_arrives json_loads broker chan method properties body (h, conn, w)
  = ((Blocking_process json_loads broker chan method properties body h w).1.2,
     conn,
     (Blocking_process json_loads broker chan method properties body h w).2).
Proof.
  unfold reply_arrives.
  destruct (Blocking_process _ _ _ _ _ _ h w) as [[o h'] w']. reflexivity.
Qed.

(** Deliveries in a row, on a broker that takes the acks. *)
Lemma replies_arrive_lookup json_loads broker chan rs : forall self conn w c,
  (forall n, broker n = None) ->
  _response_queues (replies_arrive json_loads broker chan rs (self, conn, w)).1.1
    !! c
  = (fun q => q ++ omap (carries json_loads c) rs) <$> _response_queues self !! c
  /\ sent (replies_arrive json_loads broker chan rs (self, conn, w)).2
     = sent w ++ map (fun r => ack_sent chan (delivery_tag (reply_method r))) rs
  /\ (replies_arrive json_loads broker chan rs (self, conn, w)).1.2 = conn.
Proof.
  induction rs as [|r rs IH]; intros self conn w c Hb.
  { cbn. rewrite app_nil_r. split; [|auto].
    destruct (_response_queues self !! c); cbn; [rewrite app_nil_r|]; reflexivity. }
  unfold replies_arrive in *. cbn [foldl]. rewrite reply_arrives_eq.
  pose proof (Blocking_process_lookup json_loads broker chan (reply_method r)
                (reply_properties r) (reply_body r) self w c (Hb _)) as Hl.
  pose proof (Blocking_process_acks json_loads broker chan (reply_method r)
                (reply_properties r) (reply_body r) self w (Hb _)) as [Hs _].
  match goal with
  | |- context [foldl _ (?h, conn, ?v) rs] =>
      destruct (IH h conn v c Hb) as (H1 & H2 & H3)
  end.
  rewrite H1, H2, H3, Hl, Hs. split; [|split; [|reflexivity]].
  - destruct r as [m p b]. cbn [omap list_omap reply_method reply_properties reply_body].
    destruct (_response_queues self !! c) as [q|]; cbn; [|reflexivity].
    destruct (carries json_loads c (mkReply m p b)); cbn;
      rewrite <- app_assoc; reflexivity.
  - cbn. rewrite <- app_assoc. reflexivity.
Qed.

(** X17. A blocking publish gets its own reply and no other: of the
    deliveries that arrive while it waits, it returns the decoded body of
    the first one that carries its correlation-ID, whatever else arrives
    before or after, and raises the no-response [RuntimeError] when none
    does (a body that does not decode counts for nothing).  The replies to
    other correlation-IDs go to the queues of those, all of them and in the
    order of arrival. *)
Theorem blocking_publish_takes_its_own_reply json_loads json_dumps sending
    broker chan rs caller uuid message given_id routing_key expiration t
    self conn w self1 conn1 w1 :
  let cid := default uuid given_id in
  let result :=
    Blocking_publish json_dumps sending
      (replies_arrive json_loads broker chan rs) caller uuid message given_id
      routing_key expiration (Some t) self conn w in
  Base_publish json_dumps sending caller (b_exchange self) (b_queue self)
      message cid routing_key expiration (awaiting cid self) conn w
    = (Returns tt, self1, conn1, w1) ->
  _response_queues self1 !! cid = Some [] ->
  (forall n, broker n = None) ->
  0 <= t ->
  result.1.1.1
  = match head (omap (carries json_loads cid) rs) with
    | Some resp => Returns resp
    | None => Raises (RuntimeError ("No response received for task " +:+ cid))
    end
  /\ _response_queues result.1.1.2 !! cid = None
  /\ (forall c, c <> cid ->
        _response_queues result.1.1.2 !! c
        = (fun q => q ++ omap (carries json_loads c) rs)
          <$> _response_queues self1 !! c).
Proof.
  intros cid result Hsend Hq Hb Ht. subst result.
  pose proof (replies_arrive_lookup json_loads broker chan rs self1 conn1 w1)
    as Hl.
  destruct (replies_arrive json_loads broker chan rs (self1, conn1, w1))
    as [[self2 conn2] w2] eqn:Hw.
  cbn [fst snd] in Hl.
  assert (Hq2 : _response_queues self2 !! cid
                = Some (omap (carries json_loads cid) rs)).
  { destruct (Hl cid Hb) as (-> & _). rewrite Hq. reflexivity. }
  rewrite (Blocking_publish_exit _ _ _ _ _ _ _ _ _ _ _ _ _ _ _ _ _ _ _ _
             Hsend Hw Ht Hq2).
  cbn [fst snd _response_queues set_response_queues]. fold cid.
  split; [|split].
  - destruct (omap (carries json_loads cid) rs); reflexivity.
  - apply lookup_delete_eq.
  - intros c Hc. rewrite lookup_delete_ne by congruence.
    destruct (Hl c Hb) as (-> & _). reflexivity.
Qed.

Lemma blocking_publish_takes_its_own_reply_witness :
  let waiting_too :=
    mkBlocking "rpc" "rpc_response_0" {[ "c2" := [] ]} in
  let result :=
    Blocking_publish dumps_literal (actor_drains healthy (0%nat, 1%nat))
      (replies_arrive loads_literal healthy (0%nat, 2%nat) crossed_replies)
      3%nat "c1" (JObj []) None routing_key None (Some 1) waiting_too
      (AMQPConnection_init [] (HostStr "localhost") localhost_params None)
      world0 in
  result.1.1.1 = Returns (JBool true)
  /\ _response_queues result.1.1.2 !! "c1" = None
  /\ _response_queues result.1.1.2 !! "c2" = Some [JBool false].
Proof.
  intros waiting_too result.
  destruct (blocking_publish_takes_its_own_reply loads_literal dumps_literal
              (actor_drains healthy (0%nat, 1%nat)) healthy (0%nat, 2%nat)
              crossed_replies 3%nat "c1" (JObj []) None routing_key None 1
              waiting_too
              (AMQPConnection_init [] (HostStr "localhost") localhost_params None)
              world0 _ _ _ eq_refl) as (H1 & H2 & H3).
  - vm_compute. reflexivity.
  - intros n. reflexivity.
  - lia.
  - split; [exact H1|]. split; [exact H2|].
    etransitivity; [apply (H3 "c2"); discriminate|].
    vm_compute. reflexivity.
Defined.

(** X18. The blocking handler acks every delivery on its reply queue, in
    order, also those it cannot decode or place, and [process] never adds
    or removes a correlation entry: the table has the same keys after any
    run of deliveries. *)
Theorem blocking_process_acks_all json_loads broker chan rs self conn w :
  (forall n, broker n = None) ->
  let after := replies_arrive json_loads broker chan rs (self, conn, w) in
  sent after.2
  = sent w ++ map (fun r => ack_sent chan (delivery_tag (reply_method r))) rs
  /\ dom (_response_queues after.1.1) = dom (_response_queues self)
  /\ after.1.2 = conn.
Proof.
  intros Hb after. subst after.
  pose proof (replies_arrive_lookup json_loads broker chan rs self conn w) as Hl.
  split; [|split].
  - destruct (Hl EmptyString Hb) as (_ & Hs & _). exact Hs.
  - apply set_eq. intros c. rewrite !elem_of_dom.
    destruct (Hl c Hb) as (-> & _). rewrite fmap_is_Some. reflexivity.
  - destruct (Hl EmptyString Hb) as (_ & _ & Hc). exact Hc.
Qed.

Lemma blocking_process_acks_all_witness :
  let after :=
    replies_arrive loads_literal healthy (0%nat, 2%nat) crossed_replies
      (mkBlocking "rpc" "rpc_response_0" {[ "c2" := [] ]},
       AMQPConnection_init [] (HostStr "localhost") localhost_params None,
       world0) in
  map (fun m => m.1.2) (sent after.2)
    = ["basic_ack"; "basic_ack"; "basic_ack"; "basic_ack"]
  /\ dom (_response_queues after.1.1) = {[ "c2" ]}.
Proof.
  intros after.
  destruct (blocking_process_acks_all loads_literal healthy (0%nat, 2%nat)
              crossed_replies (mkBlocking "rpc" "rpc_response_0" {[ "c2" := [] ]})
              (AMQPConnection_init [] (HostStr "localhost") localhost_params None)
              world0) as (H1 & H2 & _).
  - intros n. reflexivity.
  - fold after in H1, H2. rewrite H1, H2. split; [reflexivity|].
    cbn. apply dom_singleton_L.
Defined.




(** ** Options and the host list *)

Lemma host_given_has_hosts rand raw :
  host_given (Some raw) = true -> gen_hosts rand raw <> [].
Proof.
  destruct raw as [h|hs]; cbn [gen_hosts]; [discriminate|].
  destruct hs as [|h hs]; [discriminate|]. intros _ Hnil.
  pose proof (random_shuffle_Permutation rand (h :: hs)) as Hp.
  rewrite Hnil in Hp. apply Permutation_nil_l in Hp. discriminate.
Qed.

Lemma hosts_yielded_from_created rand raw pp n :
  gen_hosts rand raw <> [] ->
  is_Some (hosts_yielded n rand raw pp GenCreated).
Proof.
  intros Hne. destruct n as [|n]; [by eexists|].
  cbn [hosts_yielded gen_next].
  destruct (gen_hosts rand raw) as [|h t]; [congruence|].
  cbn [gen_resume yielded].
  destruct (hosts_yielded_total n rand raw pp h t t (set_host h pp)) as [l ->].
  by eexists.
Qed.

(** X20. The configured broker hostname is the fallback for a host
    argument that is missing or empty ([None], [''], [[]]), and a host
    argument that is not empty is taken as it is.  When the configured
    hostname is not empty, the client that [get_client] builds therefore
    always has a host to dial: every [next] of its host iterator returns. *)
Theorem get_client_has_hosts cfg amqp_host amqp_port amqp_vhost timeout rand :
  host_given (Some (broker_hostname cfg)) = true ->
  let client := get_client cfg amqp_host amqp_port amqp_vhost timeout in
  raw_host_of client
  = (if host_given amqp_host then default (broker_hostname cfg) amqp_host
     else broker_hostname cfg)
  /\ has_hosts rand client
  /\ (forall n,
        is_Some (hosts_yielded n rand (raw_host_of client)
                   (as_pika_params client) GenCreated))
  /\ _handlers client = [].
Proof.
  intros Hcfg client.
  assert (Hh : gen_hosts rand (raw_host_of client) <> []).
  { subst client. cbn. destruct (host_given amqp_host) eqn:Hg.
    - destruct amqp_host as [raw|]; [|discriminate].
      apply host_given_has_hosts. exact Hg.
    - apply host_given_has_hosts. exact Hcfg. }
  split; [reflexivity|]. split; [exact Hh|]. split; [|reflexivity].
  intros n. apply hosts_yielded_from_created. exact Hh.
Qed.

Lemma get_client_has_hosts_witness :
  let cfg := mkBrokerConfig (HostSeq ["mq1"; "mq2"]) 5671 "/" in
  raw_host_of (get_client cfg (Some (HostSeq [])) None None (Some 10))
    = HostSeq ["mq1"; "mq2"]
  /\ raw_host_of (get_client cfg (Some (HostStr "other")) None None (Some 10))
    = HostStr "other".
Proof.
  intros cfg. split.
  - exact (proj1 (get_client_has_hosts cfg (Some (HostSeq [])) None None
                    (Some 10) (fun _ => 0%nat) eq_refl)).
  - exact (proj1 (get_client_has_hosts cfg (Some (HostStr "other")) None None
                    (Some 10) (fun _ => 0%nat) eq_refl)).
Defined.

(** X21. With an empty host list (no host argument and an empty list
    configured), the host iterator never hands out anything, whatever the
    fuel, and [connect] never returns: it dials no host, sleeps not once
    and sets neither the event nor [_error], so that a caller of
    [consume_in_thread] stays suspended. *)
Theorem connect_without_hosts_never_returns cfg amqp_host amqp_port amqp_vhost
    timeout rand att atts w :
  broker_hostname cfg = HostSeq [] ->
  host_given amqp_host = false ->
  let client := get_client cfg amqp_host amqp_port amqp_vhost timeout in
  (forall fuel,
     gen_next fuel rand (raw_host_of client) (as_pika_params client)
       (_connection_params client) = None)
  /\ (connect rand (att :: atts) client w).1.1.1 = Some Blocks
  /\ dialled (connect rand (att :: atts) client w).1.2 = dialled w
  /\ slept (connect rand (att :: atts) client w).1.2 = slept w
  /\ (consume_in_thread (thread_connects rand (att :: atts)) client w).1.1
     = Blocks.
Proof.
  intros Hcfg Hg client.
  assert (Hraw : raw_host_of client = HostSeq []).
  { subst client. cbn. rewrite Hg. exact Hcfg. }
  assert (Hgen : forall fuel,
            gen_next fuel rand (raw_host_of client) (as_pika_params client)
              (_connection_params client) = None).
  { intros fuel. rewrite Hraw. subst client. cbn.
    apply gen_resume_no_hosts. }
  split; [exact Hgen|].
  assert (Hc : forall self v,
            raw_host_of self = HostSeq [] ->
            _connection_params self = GenCreated ->
            connect rand (att :: atts) self v
            = (Some Blocks, set_pika_connection None (set_error None self), v,
               att :: atts)).
  { intros self v Hr Hp. unfold connect. cbn [connect_loop].
    cbn [raw_host_of as_pika_params _connection_params set_pika_connection
         set_error]. rewrite Hr, Hp. cbn [gen_next gen_hosts random_shuffle].
    cbn. reflexivity. }
  rewrite (Hc client w Hraw eq_refl). cbn [fst snd].
  split; [reflexivity|]. split; [reflexivity|]. split; [reflexivity|].
  unfold consume_in_thread, thread_connects.
  change (_consumer_thread client) with (@None thread_id). cbn beta iota.
  rewrite Hc by (cbn; auto). reflexivity.
Qed.

Lemma connect_without_hosts_never_returns_witness :
  (connect (fun _ => 0%nat) [accepted]
     (get_client (mkBrokerConfig (HostSeq []) 5672 "/") None None None (Some 10))
     world0).1.1.1
  = Some Blocks.
Proof.
  exact (proj1 (proj2 (connect_without_hosts_never_returns
    (mkBrokerConfig (HostSeq []) 5672 "/") None None None (Some 10)
    (fun _ => 0%nat) accepted [] world0 eq_refl eq_refl))).
Defined.

(** ** Channels and handlers *)





(** ** Calls that do not wait *)

Lemma submit_all_enqueues subs : forall self w,
  submit_all subs self w
  = (map (fun _ => Returns tt) subs,
     set_tasks_queue (_connection_tasks_queue self ++ map unwaited subs) self,
     w).
Proof.
  induction subs as [|s subs IH]; intros self w.
  - cbn. rewrite app_nil_r. destruct self; reflexivity.
  - cbn [submit_all]. unfold channel_method. cbn [andb].
    rewrite IH. cbn. unfold Queue.put. rewrite <- app_assoc. reflexivity.
Qed.

Lemma waiters_unwaited s subs : waiters s (map unwaited subs) = 0%nat.
Proof.
  unfold waiters. induction subs as [|x subs IH]; [reflexivity|].
  cbn [map]. rewrite filter_cons.
  destruct (decide (env_err_queue (unwaited x) = Some s)) as [H|_];
    [discriminate H|exact IH].
Qed.

(** X24. Calls of [channel_method] with [wait=False] return at once,
    from any thread, the consumer thread included, and whatever their
    timeout; each leaves one envelope without reply queue at the tail of
    the outbound queue and nothing else changes.  The next drain that
    meets no error hands the envelopes queued before and then those of the
    calls to the broker, in the order of the calls, and puts a marker on
    the reply queues of the envelopes queued before only. *)
Theorem unwaited_calls_keep_their_order broker chan subs self w :
  (forall i, (i < length (_connection_tasks_queue self) + length subs)%nat ->
             broker (ncalls w + i)%nat = None) ->
  let '(rs, self1, w1) := submit_all subs self w in
  rs = map (fun _ => Returns tt) subs
  /\ w1 = w
  /\ self1
     = set_tasks_queue (_connection_tasks_queue self ++ map unwaited subs) self
  /\ (_process_publish broker chan self1 w1).1.1 = Returns tt
  /\ _connection_tasks_queue (_process_publish broker chan self1 w1).1.2 = []
  /\ sent (_process_publish broker chan self1 w1).2
     = sent w ++ map (delivery chan)
                   (_connection_tasks_queue self ++ map unwaited subs)
  /\ (forall s,
        default [] (slots (_process_publish broker chan self1 w1).2 !! s)
        = default [] (slots w !! s)
          ++ replicate (waiters s (_connection_tasks_queue self)) None).
Proof.
  intros Hok. rewrite submit_all_enqueues.
  repeat (split; [reflexivity|]).
  unfold _process_publish. cbn [_connection_tasks_queue set_tasks_queue _closed].
  set (q := _connection_tasks_queue self ++ map unwaited subs).
  assert (Hq : forall i, (i < length q)%nat -> broker (ncalls w + i)%nat = None).
  { intros i Hi. apply Hok. subst q.
    rewrite length_app, length_map in Hi. exact Hi. }
  destruct (drain_all q broker chan (_closed self) w Hq) as (w' & Heq & Hs & _).
  pose proof (drain_all_replies q broker chan (_closed self) w) as Hrep.
  rewrite Heq in *. cbn. repeat split; try assumption.
  intros s. specialize (Hrep s Hq). cbn [snd] in Hrep. rewrite Hrep. subst q.
  rewrite waiters_app, waiters_unwaited, Nat.add_0_r. reflexivity.
Qed.

(** Three logs sent without waiting, the second from the consumer thread
    itself. *)
Lemma unwaited_calls_keep_their_order_witness :
  let self :=
    set_consumer_thread (Some 7%nat)
      (AMQPConnection_init [] (HostStr "localhost") localhost_params None) in
  let subs :=
    [mkSubmission 3%nat "publish" None None [("body", "1")];
     mkSubmission 7%nat "publish" None (Some 5) [("body", "2")];
     mkSubmission 3%nat "basic_ack" (Some (0%nat, 2%nat)) None
       [("delivery_tag", "1")]] in
  (submit_all subs self world0).1.1 = [Returns tt; Returns tt; Returns tt]
  /\ sent (_process_publish healthy (0%nat, 1%nat)
             (submit_all subs self world0).1.2 (submit_all subs self world0).2).2
     = [((0%nat, 1%nat), "publish", [("body", "1")]);
        ((0%nat, 1%nat), "publish", [("body", "2")]);
        ((0%nat, 2%nat), "basic_ack", [("delivery_tag", "1")])].
Proof.
  intros self subs.
  pose proof (unwaited_calls_keep_their_order healthy (0%nat, 1%nat) subs self
                world0 (fun i _ => eq_refl)) as H.
  destruct (submit_all subs self world0) as [[rs self1] w1].
  destruct H as (Hr & _ & _ & _ & _ & Hs & _).
  split; [exact Hr|exact Hs].
Defined.

(** ** The dict of [publish] *)


